(** * Order façade for the Polymarket CLOB: a shallow embedding

    The development follows [src/services/clobClient.ts] (the session
    registry, the market resolver and the limit-order dispatcher) and
    [src/routes/orders.ts] (the three POST handlers).

    Modelling conventions.
    - A request body is the JSON object the handler reads.  Every field has
      the JSON type its TypeScript interface declares, wrapped in [option]:
      [None] stands for a field that is [undefined] or [null].  The literal
      unions of [side] and [orderType] are erased at run time, so both are
      plain strings here.
    - JSON numbers are finite, hence rationals ([Q]); the handlers only test
      their sign and pass them on.
    - The venue, the wallet library, the clock and [process.env] are the
      outside world: a record [Venue] of oracles.  Every upstream call is
      appended to the process trace, and the oracle is asked with the
      number of calls made so far, so its answers may change over time.
    - An [async] function is a state transformer over [Process] that either
      returns a value or throws a [JsError].
    - Every [new PolymarketClobClient(...)] receives a fresh object id, so
      that "the same instance" is a statement about [oid].
    - [console.log] / [console.error] output is not part of the model. *)

From stdpp Require Import gmap strings list.
From Stdlib Require Import Ascii QArith.
Close Scope Q_scope.
Open Scope string_scope.

(** ** JavaScript helpers *)

Module Js.

(** Truthiness of an optional string: [undefined], [null] and the empty
    string are falsy. *)
Definition truthy (v : option string) : bool :=
  match v with
  | None => false
  | Some s => negb (String.eqb s "")
  end.

(** [hay.includes(needle)]. *)
Fixpoint includes (hay needle : string) : bool :=
  if String.prefix needle hay then true
  else match hay with
       | EmptyString => false
       | String _ rest => includes rest needle
       end.

(** [`${v}`] for a value that is a string or [undefined]. *)
Definition template (v : option string) : string := default "undefined" v.

(** [v || d] for an optional string. *)
Definition or_else (v : option string) (d : string) : string :=
  match v with
  | Some s => if String.eqb s "" then d else s
  | None => d
  end.

(** [parseInt(s, 10)]: leading white space, an optional sign, then the
    longest run of decimal digits; [None] is [NaN]. *)
Definition is_space (a : ascii) : bool :=
  let n := nat_of_ascii a in
  (n =? 32)%nat || ((9 <=? n)%nat && (n <=? 13)%nat).

Fixpoint skip_space (s : string) : string :=
  match s with
  | String a rest => if is_space a then skip_space rest else s
  | EmptyString => s
  end.

Definition digit (a : ascii) : option Z :=
  let n := nat_of_ascii a in
  if (48 <=? n)%nat && (n <=? 57)%nat then Some (Z.of_nat (n - 48)) else None.

Fixpoint digits (s : string) (acc : option Z) : option Z :=
  match s with
  | EmptyString => acc
  | String a rest =>
      match digit a with
      | Some d => digits rest (Some (10 * default 0%Z acc + d)%Z)
      | None => acc
      end
  end.

Definition parseInt (s : string) : option Z :=
  match skip_space s with
  | String "-" rest => Z.opp <$> digits rest None
  | String "+" rest => digits rest None
  | s' => digits s' None
  end.

(** A thrown value, as far as the code inspects it: [error.message],
    [error.response.status] and [error.data.error]. *)
Record JsError := {
  message : option string;
  response_status : option Z;
  data_error : option string
}.

(** [new Error(msg)]. *)
Definition Error (msg : string) : JsError :=
  {| message := Some msg; response_status := None; data_error := None |}.

End Js.

Import Js.

(** ** Data of the venue client library *)

Inductive Side := BUY | SELL.
Inductive OrderType := GTC | FOK | GTD | FAK.

Record ApiKeyCreds := {
  key : string;
  secret : string;
  passphrase : string
}.

Record Wallet := { wallet_privateKey : string }.

(** A client object: the arguments of its constructor and its identity.
    The transient client is built from [(host, chainId, signer)] alone, so
    its other three fields are absent. *)
Record PolymarketClobClient := {
  oid : nat;
  host : string;
  chainId : option Z;
  signer : Wallet;
  creds : option ApiKeyCreds;
  signatureType : option (option Z);
  funderAddress : option string
}.

Record UserOrder := {
  uo_tokenID : string;
  uo_price : Q;
  uo_side : Side;
  uo_size : Q
}.

Record UserMarketOrder := {
  umo_tokenID : string;
  umo_amount : Q;
  umo_side : Side
}.

Record CreateOrderOptions := {
  co_tickSize : string;
  co_negRisk : bool
}.

(** The upstream calls, as they appear in the trace of the process. *)
Inductive Event :=
| EvCreateOrDeriveApiKey (c : PolymarketClobClient)
| EvGetTickSize (c : PolymarketClobClient) (tokenID : string)
| EvCreateAndPostOrder (c : PolymarketClobClient) (o : UserOrder)
    (opts : CreateOrderOptions) (ot : OrderType)
| EvCreateAndPostMarketOrder (c : PolymarketClobClient) (o : UserMarketOrder)
    (opts : CreateOrderOptions) (ot : OrderType).

(** ** The outside world *)

Record ProcessEnv := {
  PRIVATE_KEY : option string;
  FUNDER_ADDRESS : option string;
  HOST : option string;
  CHAIN_ID : option string;
  SIGNATURE_TYPE : option string
}.

Record Venue := {
  env : ProcessEnv;
  (** [new Wallet(privateKey)] throws on a malformed key. *)
  Wallet_rejects : string -> option JsError;
  createOrDeriveApiKey :
    nat -> PolymarketClobClient -> JsError + option ApiKeyCreds;
  getTickSize : nat -> PolymarketClobClient -> string -> JsError + string;
  client_createAndPostOrder :
    nat -> PolymarketClobClient -> UserOrder -> CreateOrderOptions ->
    OrderType -> JsError + string;
  client_createAndPostMarketOrder :
    nat -> PolymarketClobClient -> UserMarketOrder -> CreateOrderOptions ->
    OrderType -> JsError + string;
  (** [new Date().toISOString()] *)
  toISOString : nat -> string
}.

(** ** The process: the statics of [ClobClient], the allocator, the trace *)

Record Process := {
  instance : option PolymarketClobClient;
  clientCache : gmap string PolymarketClobClient;
  credsCache : gmap string (option ApiKeyCreds);
  nextOid : nat;
  trace : list Event
}.

Definition set_clientCache (f : gmap string PolymarketClobClient ->
                                gmap string PolymarketClobClient)
    (p : Process) : Process :=
  {| instance := instance p; clientCache := f (clientCache p);
     credsCache := credsCache p; nextOid := nextOid p; trace := trace p |}.

Definition set_credsCache (f : gmap string (option ApiKeyCreds) ->
                               gmap string (option ApiKeyCreds))
    (p : Process) : Process :=
  {| instance := instance p; clientCache := clientCache p;
     credsCache := f (credsCache p); nextOid := nextOid p; trace := trace p |}.

Definition bump_oid (p : Process) : Process :=
  {| instance := instance p; clientCache := clientCache p;
     credsCache := credsCache p; nextOid := S (nextOid p); trace := trace p |}.

Definition log_call (e : Event) (p : Process) : Process :=
  {| instance := instance p; clientCache := clientCache p;
     credsCache := credsCache p; nextOid := nextOid p;
     trace := trace p ++ [e] |}.

(** ** Async functions: state and exceptions *)

Inductive Completion (A : Type) :=
| Return (a : A)
| Throw (e : JsError).
Arguments Return {A} a.
Arguments Throw {A} e.

Definition Async (A : Type) : Type := Process -> Completion A * Process.

Definition ret {A} (a : A) : Async A := fun p => (Return a, p).
Definition throw {A} (e : JsError) : Async A := fun p => (Throw e, p).

Definition bind {A B} (m : Async A) (k : A -> Async B) : Async B :=
  fun p =>
    match m p with
    | (Return a, p') => k a p'
    | (Throw e, p') => (Throw e, p')
    end.

Definition try_catch {A} (m : Async A) (h : JsError -> Async A) : Async A :=
  fun p =>
    match m p with
    | (Return a, p') => (Return a, p')
    | (Throw e, p') => h e p'
    end.

Definition modify (f : Process -> Process) : Async unit :=
  fun p => (Return tt, f p).

Definition gets {A} (f : Process -> A) : Async A :=
  fun p => (Return (f p), p).

(** An upstream call: logged, then answered by the oracle. *)
Definition upstream {A} (e : Event) (answer : nat -> JsError + A) : Async A :=
  fun p =>
    match answer (length (trace p)) with
    | inr a => (Return a, log_call e p)
    | inl err => (Throw err, log_call e p)
    end.

Declare Scope async_scope.
Delimit Scope async_scope with async.
Notation "x <- m ;; k" := (bind m (fun x => k))
  (at level 100, m at next level, right associativity) : async_scope.
Notation "m ;;; k" := (bind m (fun _ => k))
  (at level 100, right associativity) : async_scope.
Open Scope async_scope.

(** [new PolymarketClobClient(...)]: a fresh object. *)
Definition new_PolymarketClobClient (h : string) (cid : option Z) (s : Wallet)
    (cr : option ApiKeyCreds) (st : option (option Z)) (fa : option string)
  : Async PolymarketClobClient :=
  fun p =>
    (Return {| oid := nextOid p; host := h; chainId := cid; signer := s;
               creds := cr; signatureType := st; funderAddress := fa |},
     bump_oid p).

(** ** [src/services/clobClient.ts] *)

Record MarketInfo := { mi_tickSize : string; mi_exists : bool }.

Module OrderParams.
(** The first argument of [createAndPostOrder].  The routes also pass
    [expiration]; the service never reads it. *)
Record t := {
  tokenID : string;
  price : Q;
  side : string;
  size : Q;
  expiration : option Q
}.
End OrderParams.

Module MarketOrderParams.
Record t := {
  tokenID : string;
  amount : Q;
  side : string;
  orderType : string
}.
End MarketOrderParams.

Module MarketParams.
Record t := { tickSize : option string; negRisk : option bool }.
End MarketParams.

Module Credentials.
Record t := { privateKey : string; funderAddress : string }.
End Credentials.

Module ClobClient.
Section WithVenue.

Variable w : Venue.

(** [`${privateKey}-${funderAddress}`] *)
Definition cacheKey (privateKey funderAddress : string) : string :=
  privateKey +:+ "-" +:+ funderAddress.

Definition env_host : string :=
  or_else (HOST (env w)) "https://clob.polymarket.com".
Definition env_chainId : option Z :=
  parseInt (or_else (CHAIN_ID (env w)) "137").
Definition env_signatureType : option Z :=
  parseInt (or_else (SIGNATURE_TYPE (env w)) "1").

(** [static async getInstanceWithCredentials(privateKey, funderAddress,
    host = ..., chainId = ..., signatureType = ...)]; an omitted optional
    argument is [None]. *)
Definition getInstanceWithCredentials
    (privateKey funderAddress : string)
    (host : option string) (chainId signatureType : option (option Z))
  : Async PolymarketClobClient :=
  let host := default env_host host in
  let chainId := default env_chainId chainId in
  let signatureType := default env_signatureType signatureType in
  let cacheKey := cacheKey privateKey funderAddress in
  cached <- gets (fun p => clientCache p !! cacheKey) ;;
  match cached with
  | Some client => ret client
  | None =>
      if String.eqb privateKey "" then
        throw (Error "privateKey is required")
      else if String.eqb funderAddress "" then
        throw (Error "funderAddress is required")
      else
        match Wallet_rejects w privateKey with
        | Some e => throw e
        | None =>
            let signer := {| wallet_privateKey := privateKey |} in
            tempClient <-
              new_PolymarketClobClient host chainId signer None None None ;;
            cachedCreds <- gets (fun p => credsCache p !! cacheKey) ;;
            creds <-
              match cachedCreds with
              | Some creds => ret creds
              | None =>
                  creds <-
                    try_catch
                      (creds <- upstream (EvCreateOrDeriveApiKey tempClient)
                                 (fun n => createOrDeriveApiKey w n tempClient) ;;
                       modify (set_credsCache (insert cacheKey creds)) ;;;
                       ret creds)
                      (fun error =>
                         throw (Error
                           ("Failed to create API key: "
                            +:+ or_else (message error) "Unknown error"
                            +:+ ". Please check your privateKey and ensure your wallet is properly configured."))) ;;
                  match creds with
                  | None =>
                      throw (Error "API key creation returned null/undefined")
                  | Some _ => ret creds
                  end
              end ;;
            client <-
              new_PolymarketClobClient host chainId signer creds
                (Some signatureType) (Some funderAddress) ;;
            modify (set_clientCache (insert cacheKey client)) ;;;
            ret client
        end
  end.

(** [static async getInstance()] *)
Definition getInstance : Async PolymarketClobClient :=
  inst <- gets instance ;;
  match inst with
  | Some client => ret client
  | None =>
      let privateKey := PRIVATE_KEY (env w) in
      let funder := FUNDER_ADDRESS (env w) in
      let host := env_host in
      let chainId := env_chainId in
      let signatureType := env_signatureType in
      if negb (truthy privateKey) then
        throw (Error "PRIVATE_KEY environment variable is required")
      else if negb (truthy funder) then
        throw (Error "FUNDER_ADDRESS environment variable is required")
      else
        getInstanceWithCredentials (default "" privateKey) (default "" funder)
          (Some host) (Some chainId) (Some signatureType)
  end.

(** [static async getMarketInfo(tokenID, client?)] *)
Definition getMarketInfo (tokenID : string)
    (client : option PolymarketClobClient) : Async MarketInfo :=
  clobClient <- match client with
                | Some c => ret c
                | None => getInstance
                end ;;
  try_catch
    (tickSize <- upstream (EvGetTickSize clobClient tokenID)
                   (fun n => getTickSize w n clobClient tokenID) ;;
     ret {| mi_tickSize := tickSize; mi_exists := true |})
    (fun error =>
       if bool_decide (response_status error = Some 404%Z)
          || match data_error error with
             | Some s => includes s "not found"
             | None => false
             end
       then
         throw (Error
           ("Market not found for tokenID: " +:+ tokenID
            +:+ ". Please verify the tokenID is correct and the market exists."))
       else throw error).

(** The ternary at the head of [createAndPostOrder]:
    [credentials ? getInstanceWithCredentials(...) : getInstance()]. *)
Definition clientFor (credentials : option Credentials.t)
  : Async PolymarketClobClient :=
  match credentials with
  | Some c =>
      getInstanceWithCredentials (Credentials.privateKey c)
        (Credentials.funderAddress c) None None None
  | None => getInstance
  end.

(** [static async createAndPostOrder(orderParams, marketParams,
    orderType = "GTC", credentials?)] *)
Definition createAndPostOrder (orderParams : OrderParams.t)
    (marketParams : MarketParams.t) (orderType : option string)
    (credentials : option Credentials.t) : Async string :=
  let orderType := default "GTC" orderType in
  client <- clientFor credentials ;;
  let tickSize := MarketParams.tickSize marketParams in
  tickSize <-
    (if negb (truthy tickSize) then
       try_catch
         (marketInfo <- getMarketInfo (OrderParams.tokenID orderParams)
                          (Some client) ;;
          ret (Some (mi_tickSize marketInfo)))
         (fun error =>
            throw (Error
              ("Failed to get market info: " +:+ template (message error)
               +:+ ". Please provide tickSize manually or use a valid tokenID.")))
     else ret tickSize) ;;
  if negb (truthy tickSize) || bool_decide (tickSize = Some "") then
    throw (Error
      "tickSize is required but could not be determined from market")
  else
    let sideEnum :=
      if String.eqb (OrderParams.side orderParams) "BUY" then BUY else SELL in
    try_catch
      (if String.eqb orderType "FOK" || String.eqb orderType "FAK" then
         throw (Error
           ("Order type " +:+ orderType
            +:+ " requires createAndPostMarketOrder which needs a different order structure. Please use GTC or GTD for limit orders."))
       else
         let orderTypeEnum :=
           if String.eqb orderType "GTD" then GTD else GTC in
         let order :=
           {| uo_tokenID := OrderParams.tokenID orderParams;
              uo_price := OrderParams.price orderParams;
              uo_side := sideEnum;
              uo_size := OrderParams.size orderParams |} in
         let options :=
           {| co_tickSize := default "" tickSize;
              co_negRisk := default false (MarketParams.negRisk marketParams) |} in
         upstream (EvCreateAndPostOrder client order options orderTypeEnum)
           (fun n => client_createAndPostOrder w n client order options
                       orderTypeEnum))
      (fun error =>
         if bool_decide (response_status error = Some 404%Z) then
           throw (Error
             ("Market not found for tokenID: "
              +:+ OrderParams.tokenID orderParams
              +:+ ". Please verify the tokenID is correct."))
         else if match message error with
                 | Some m => includes m "toString"
                 | None => false
                 end
         then
           throw (Error
             ("Invalid market parameters. Market may not exist or tickSize may be incorrect. Original error: "
              +:+ template (message error)))
         else throw error).

(** Modelled from the spec: [ClobClient.createAndPostMarketOrder], which
    [src/routes/orders.ts] calls and [src/services/clobClient.ts] does not
    define.  It follows steps 2 to 6 of the dispatcher's state machine: the
    session comes from the registry for the resolved credentials; the
    market resolver runs only if the tick size is absent and its error
    aborts the request; an empty tick size is fatal; side and
    time-in-force are mapped to the venue's codes; the order goes through
    the session's market-order submission; an upstream 404 and a message
    mentioning [toString] are rewritten, every other error passes through.
    The route only lets [FOK] and [FAK] through, so the mapping of any
    other time-in-force is never exercised. *)
Definition createAndPostMarketOrder (orderParams : MarketOrderParams.t)
    (marketParams : MarketParams.t) (orderType : string)
    (credentials : option Credentials.t) : Async string :=
  client <- clientFor credentials ;;
  let tickSize := MarketParams.tickSize marketParams in
  tickSize <-
    (if negb (truthy tickSize) then
       marketInfo <- getMarketInfo (MarketOrderParams.tokenID orderParams)
                       (Some client) ;;
       ret (Some (mi_tickSize marketInfo))
     else ret tickSize) ;;
  if negb (truthy tickSize) then
    throw (Error
      "tickSize is required but could not be determined from market")
  else
    let sideEnum :=
      if String.eqb (MarketOrderParams.side orderParams) "BUY"
      then BUY else SELL in
    let orderTypeEnum := if String.eqb orderType "FAK" then FAK else FOK in
    let order :=
      {| umo_tokenID := MarketOrderParams.tokenID orderParams;
         umo_amount := MarketOrderParams.amount orderParams;
         umo_side := sideEnum |} in
    let options :=
      {| co_tickSize := default "" tickSize;
         co_negRisk := default false (MarketParams.negRisk marketParams) |} in
    try_catch
      (upstream (EvCreateAndPostMarketOrder client order options orderTypeEnum)
         (fun n => client_createAndPostMarketOrder w n client order options
                     orderTypeEnum))
      (fun error =>
         if bool_decide (response_status error = Some 404%Z) then
           throw (Error
             ("Market not found for tokenID: "
              +:+ MarketOrderParams.tokenID orderParams
              +:+ ". Please verify the tokenID is correct."))
         else if match message error with
                 | Some m => includes m "toString"
                 | None => false
                 end
         then
           throw (Error
             ("Invalid market parameters. Market may not exist or tickSize may be incorrect. Original error: "
              +:+ template (message error)))
         else throw error).

End WithVenue.
End ClobClient.

(** ** [src/types/order.ts] *)

Module LimitOrderRequest.
Record t := {
  tokenID : option string;
  price : option Q;
  side : option string;
  size : option Q;
  tickSize : option string;
  negRisk : option bool;
  orderType : option string;
  expiration : option Q;
  privateKey : option string;
  funderAddress : option string
}.
End LimitOrderRequest.

Module MarketOrderRequest.
Record t := {
  tokenID : option string;
  amount : option Q;
  side : option string;
  orderType : option string;
  tickSize : option string;
  privateKey : option string;
  funderAddress : option string
}.
End MarketOrderRequest.

(** [interface OrderRequest extends LimitOrderRequest {}] *)
Definition OrderRequest : Type := LimitOrderRequest.t.

(** The JSON object a handler sends: a key that the object literal does not
    mention is [None]. *)
Record JsonBody := {
  success : option bool;
  data : option string;
  error : option string;
  timestamp : option string
}.

Record HttpResponse := { status : Z; body : JsonBody }.

(** [res.status(400).json({ error: msg })] *)
Definition status_400_error (msg : string) : HttpResponse :=
  {| status := 400;
     body := {| success := None; data := None; error := Some msg;
                timestamp := None |} |}.

(** ** [src/routes/orders.ts] *)

Module Routes.
Section WithVenue.

Variable w : Venue.

Definition Handler : Type := Process -> HttpResponse * Process.

(** [new Date().toISOString()] at the current point of the run. *)
Definition now (p : Process) : string := toISOString w (length (trace p)).

(** [router.post("/limit", ...)] *)
Definition post_limit (orderRequest : LimitOrderRequest.t) : Handler :=
  fun p =>
    if negb (truthy (LimitOrderRequest.tokenID orderRequest)) then
      (status_400_error "tokenID is required", p)
    else if bool_decide (LimitOrderRequest.price orderRequest = None) then
      (status_400_error "price is required", p)
    else if negb (truthy (LimitOrderRequest.side orderRequest)) then
      (status_400_error "side is required (BUY or SELL)", p)
    else if bool_decide (LimitOrderRequest.size orderRequest = None) then
      (status_400_error "size is required", p)
    else if (truthy (LimitOrderRequest.privateKey orderRequest)
             && negb (truthy (LimitOrderRequest.funderAddress orderRequest)))
            || (negb (truthy (LimitOrderRequest.privateKey orderRequest))
                && truthy (LimitOrderRequest.funderAddress orderRequest))
    then
      (status_400_error
         "Both privateKey and funderAddress must be provided together, or neither (to use environment variables)",
       p)
    else
      let credentials :=
        if truthy (LimitOrderRequest.privateKey orderRequest)
           && truthy (LimitOrderRequest.funderAddress orderRequest)
        then
          Some {| Credentials.privateKey :=
                    default "" (LimitOrderRequest.privateKey orderRequest);
                  Credentials.funderAddress :=
                    default "" (LimitOrderRequest.funderAddress orderRequest) |}
        else None in
      match
        ClobClient.createAndPostOrder w
          {| OrderParams.tokenID :=
               default "" (LimitOrderRequest.tokenID orderRequest);
             OrderParams.price :=
               default 0%Q (LimitOrderRequest.price orderRequest);
             OrderParams.side :=
               default "" (LimitOrderRequest.side orderRequest);
             OrderParams.size :=
               default 0%Q (LimitOrderRequest.size orderRequest);
             OrderParams.expiration :=
               LimitOrderRequest.expiration orderRequest |}
          {| MarketParams.tickSize := LimitOrderRequest.tickSize orderRequest;
             MarketParams.negRisk :=
               Some (default false (LimitOrderRequest.negRisk orderRequest)) |}
          (Some (or_else (LimitOrderRequest.orderType orderRequest) "GTC"))
          credentials p
      with
      | (Return response, p') =>
          ({| status := 200;
              body := {| success := Some true; data := Some response;
                         error := None; timestamp := Some (now p') |} |},
           p')
      | (Throw error, p') =>
          ({| status := 500;
              body := {| success := Some false; data := None;
                         error := Some (or_else (message error)
                                          "Failed to create limit order");
                         timestamp := Some (now p') |} |},
           p')
      end.

(** [router.post("/market", ...)] *)
Definition post_market (orderRequest : MarketOrderRequest.t) : Handler :=
  fun p =>
    if negb (truthy (MarketOrderRequest.tokenID orderRequest)) then
      (status_400_error "tokenID is required", p)
    else if match MarketOrderRequest.amount orderRequest with
            | None => true
            | Some amount => Qle_bool amount 0
            end
    then
      (status_400_error "amount is required and must be greater than 0", p)
    else if negb (truthy (MarketOrderRequest.side orderRequest)) then
      (status_400_error "side is required (BUY or SELL)", p)
    else if negb (truthy (MarketOrderRequest.orderType orderRequest))
            || negb (bool_decide
                       (default "" (MarketOrderRequest.orderType orderRequest)
                        ∈ ["FOK"; "FAK"]))
    then
      (status_400_error
         "orderType is required and must be either FOK or FAK", p)
    else if (truthy (MarketOrderRequest.privateKey orderRequest)
             && negb (truthy (MarketOrderRequest.funderAddress orderRequest)))
            || (negb (truthy (MarketOrderRequest.privateKey orderRequest))
                && truthy (MarketOrderRequest.funderAddress orderRequest))
    then
      (status_400_error
         "Both privateKey and funderAddress must be provided together, or neither (to use environment variables)",
       p)
    else
      let credentials :=
        if truthy (MarketOrderRequest.privateKey orderRequest)
           && truthy (MarketOrderRequest.funderAddress orderRequest)
        then
          Some {| Credentials.privateKey :=
                    default "" (MarketOrderRequest.privateKey orderRequest);
                  Credentials.funderAddress :=
                    default "" (MarketOrderRequest.funderAddress orderRequest) |}
        else None in
      match
        ClobClient.createAndPostMarketOrder w
          {| MarketOrderParams.tokenID :=
               default "" (MarketOrderRequest.tokenID orderRequest);
             MarketOrderParams.amount :=
               default 0%Q (MarketOrderRequest.amount orderRequest);
             MarketOrderParams.side :=
               default "" (MarketOrderRequest.side orderRequest);
             MarketOrderParams.orderType :=
               default "" (MarketOrderRequest.orderType orderRequest) |}
          {| MarketParams.tickSize := MarketOrderRequest.tickSize orderRequest;
             MarketParams.negRisk := None |}
          (default "" (MarketOrderRequest.orderType orderRequest))
          credentials p
      with
      | (Return response, p') =>
          ({| status := 200;
              body := {| success := Some true; data := Some response;
                         error := None; timestamp := Some (now p') |} |},
           p')
      | (Throw error, p') =>
          ({| status := 500;
              body := {| success := Some false; data := None;
                         error := Some (or_else (message error)
                                          "Failed to create market order");
                         timestamp := Some (now p') |} |},
           p')
      end.

(** [router.post("/", ...)], the legacy endpoint *)
Definition post_legacy (orderRequest : OrderRequest) : Handler :=
  fun p =>
    if negb (truthy (LimitOrderRequest.tokenID orderRequest)) then
      (status_400_error "tokenID is required", p)
    else if bool_decide (LimitOrderRequest.price orderRequest = None) then
      (status_400_error "price is required", p)
    else if negb (truthy (LimitOrderRequest.side orderRequest)) then
      (status_400_error "side is required (BUY or SELL)", p)
    else if bool_decide (LimitOrderRequest.size orderRequest = None) then
      (status_400_error "size is required", p)
    else if (truthy (LimitOrderRequest.privateKey orderRequest)
             && negb (truthy (LimitOrderRequest.funderAddress orderRequest)))
            || (negb (truthy (LimitOrderRequest.privateKey orderRequest))
                && truthy (LimitOrderRequest.funderAddress orderRequest))
    then
      (status_400_error
         "Both privateKey and funderAddress must be provided together, or neither (to use environment variables)",
       p)
    else
      let credentials :=
        if truthy (LimitOrderRequest.privateKey orderRequest)
           && truthy (LimitOrderRequest.funderAddress orderRequest)
        then
          Some {| Credentials.privateKey :=
                    default "" (LimitOrderRequest.privateKey orderRequest);
                  Credentials.funderAddress :=
                    default "" (LimitOrderRequest.funderAddress orderRequest) |}
        else None in
      match
        ClobClient.createAndPostOrder w
          {| OrderParams.tokenID :=
               default "" (LimitOrderRequest.tokenID orderRequest);
             OrderParams.price :=
               default 0%Q (LimitOrderRequest.price orderRequest);
             OrderParams.side :=
               default "" (LimitOrderRequest.side orderRequest);
             OrderParams.size :=
               default 0%Q (LimitOrderRequest.size orderRequest);
             OrderParams.expiration :=
               LimitOrderRequest.expiration orderRequest |}
          {| MarketParams.tickSize := LimitOrderRequest.tickSize orderRequest;
             MarketParams.negRisk :=
               Some (default false (LimitOrderRequest.negRisk orderRequest)) |}
          (Some (or_else (LimitOrderRequest.orderType orderRequest) "GTC"))
          credentials p
      with
      | (Return response, p') =>
          ({| status := 200;
              body := {| success := Some true; data := Some response;
                         error := None; timestamp := Some (now p') |} |},
           p')
      | (Throw error, p') =>
          ({| status := 500;
              body := {| success := Some false; data := None;
                         error := Some (or_else (message error)
                                          "Failed to create order");
                         timestamp := Some (now p') |} |},
           p')
      end.

End WithVenue.
End Routes.

(** ** Vocabulary of the properties *)

(** A signing key without the separator of the cache key.  A hexadecimal
    private key, with or without its [0x] prefix, is one. *)
Fixpoint no_dash (s : string) : bool :=
  match s with
  | EmptyString => true
  | String a rest => negb (Ascii.eqb a "-") && no_dash rest
  end.

Definition is_derivation (e : Event) : bool :=
  match e with EvCreateOrDeriveApiKey _ => true | _ => false end.

Definition is_submission (e : Event) : bool :=
  match e with
  | EvCreateAndPostOrder _ _ _ _ | EvCreateAndPostMarketOrder _ _ _ _ => true
  | _ => false
  end.

(** The session [c] was constructed for the pair [(pk, fa)]. *)
Definition bound_to (c : PolymarketClobClient) (pk fa : string) : Prop :=
  signer c = {| wallet_privateKey := pk |} /\ funderAddress c = Some fa.

(** A process that has just started. *)
Definition boot : Process :=
  {| instance := None; clientCache := ∅; credsCache := ∅; nextOid := 0;
     trace := [] |}.

(** Serving one request, on any of the three POST routes, to completion. *)
Inductive serves (w : Venue) : Process -> Process -> Prop :=
| serves_limit (r : LimitOrderRequest.t) (p : Process) :
    serves w p (snd (Routes.post_limit w r p))
| serves_market (r : MarketOrderRequest.t) (p : Process) :
    serves w p (snd (Routes.post_market w r p))
| serves_legacy (r : OrderRequest) (p : Process) :
    serves w p (snd (Routes.post_legacy w r p)).

(** The states of a process that handles its requests one after the other. *)
Definition reachable (w : Venue) (p : Process) : Prop := rtc (serves w) boot p.

(** Functional updates of a limit-order body. *)
Definition with_side (s : option string) (r : LimitOrderRequest.t)
  : LimitOrderRequest.t :=
  {| LimitOrderRequest.tokenID := LimitOrderRequest.tokenID r;
     LimitOrderRequest.price := LimitOrderRequest.price r;
     LimitOrderRequest.side := s;
     LimitOrderRequest.size := LimitOrderRequest.size r;
     LimitOrderRequest.tickSize := LimitOrderRequest.tickSize r;
     LimitOrderRequest.negRisk := LimitOrderRequest.negRisk r;
     LimitOrderRequest.orderType := LimitOrderRequest.orderType r;
     LimitOrderRequest.expiration := LimitOrderRequest.expiration r;
     LimitOrderRequest.privateKey := LimitOrderRequest.privateKey r;
     LimitOrderRequest.funderAddress := LimitOrderRequest.funderAddress r |}.

Definition with_orderType (s : option string) (r : LimitOrderRequest.t)
  : LimitOrderRequest.t :=
  {| LimitOrderRequest.tokenID := LimitOrderRequest.tokenID r;
     LimitOrderRequest.price := LimitOrderRequest.price r;
     LimitOrderRequest.side := LimitOrderRequest.side r;
     LimitOrderRequest.size := LimitOrderRequest.size r;
     LimitOrderRequest.tickSize := LimitOrderRequest.tickSize r;
     LimitOrderRequest.negRisk := LimitOrderRequest.negRisk r;
     LimitOrderRequest.orderType := s;
     LimitOrderRequest.expiration := LimitOrderRequest.expiration r;
     LimitOrderRequest.privateKey := LimitOrderRequest.privateKey r;
     LimitOrderRequest.funderAddress := LimitOrderRequest.funderAddress r |}.


(** The required-field checks of the limit and legacy handlers. *)
Definition limit_fields_present (r : LimitOrderRequest.t) : bool :=
  truthy (LimitOrderRequest.tokenID r)
  && negb (bool_decide (LimitOrderRequest.price r = None))
  && truthy (LimitOrderRequest.side r)
  && negb (bool_decide (LimitOrderRequest.size r = None)).

(** Both credentials or neither. *)
Definition paired (pk fa : option string) : bool :=
  bool_decide (truthy pk = truthy fa).

(** What the resolver hands to the service: the explicit pair, or nothing
    for the server default. *)
Definition credentials_of (pk fa : option string) : option Credentials.t :=
  if truthy pk && truthy fa
  then Some {| Credentials.privateKey := default "" pk;
               Credentials.funderAddress := default "" fa |}
  else None.

(** The arguments the limit and legacy handlers build for the service. *)
Definition limit_orderParams (r : LimitOrderRequest.t) : OrderParams.t :=
  {| OrderParams.tokenID := default "" (LimitOrderRequest.tokenID r);
     OrderParams.price := default 0%Q (LimitOrderRequest.price r);
     OrderParams.side := default "" (LimitOrderRequest.side r);
     OrderParams.size := default 0%Q (LimitOrderRequest.size r);
     OrderParams.expiration := LimitOrderRequest.expiration r |}.

Definition limit_marketParams (r : LimitOrderRequest.t) : MarketParams.t :=
  {| MarketParams.tickSize := LimitOrderRequest.tickSize r;
     MarketParams.negRisk :=
       Some (default false (LimitOrderRequest.negRisk r)) |}.

Definition limit_call (w : Venue) (r : LimitOrderRequest.t) : Async string :=
  ClobClient.createAndPostOrder w (limit_orderParams r) (limit_marketParams r)
    (Some (or_else (LimitOrderRequest.orderType r) "GTC"))
    (credentials_of (LimitOrderRequest.privateKey r)
       (LimitOrderRequest.funderAddress r)).

(** The validation of the market handler, in the words of its contract:
    token present, amount above zero, side present, time in force one of
    FOK and FAK; then credentials paired. *)
Definition market_fields_valid (r : MarketOrderRequest.t) : bool :=
  truthy (MarketOrderRequest.tokenID r)
  && match MarketOrderRequest.amount r with
     | Some a => negb (Qle_bool a 0)
     | None => false
     end
  && truthy (MarketOrderRequest.side r)
  && (bool_decide (MarketOrderRequest.orderType r = Some "FOK")
      || bool_decide (MarketOrderRequest.orderType r = Some "FAK")).

Definition market_request_valid (r : MarketOrderRequest.t) : bool :=
  market_fields_valid r
  && paired (MarketOrderRequest.privateKey r)
       (MarketOrderRequest.funderAddress r).

Definition market_orderParams (r : MarketOrderRequest.t)
  : MarketOrderParams.t :=
  {| MarketOrderParams.tokenID := default "" (MarketOrderRequest.tokenID r);
     MarketOrderParams.amount := default 0%Q (MarketOrderRequest.amount r);
     MarketOrderParams.side := default "" (MarketOrderRequest.side r);
     MarketOrderParams.orderType :=
       default "" (MarketOrderRequest.orderType r) |}.

Definition market_call (w : Venue) (r : MarketOrderRequest.t) : Async string :=
  ClobClient.createAndPostMarketOrder w (market_orderParams r)
    {| MarketParams.tickSize := MarketOrderRequest.tickSize r;
       MarketParams.negRisk := None |}
    (default "" (MarketOrderRequest.orderType r))
    (credentials_of (MarketOrderRequest.privateKey r)
       (MarketOrderRequest.funderAddress r)).

Definition pairing_message : string :=
  "Both privateKey and funderAddress must be provided together, or neither (to use environment variables)".

(** The first validation failure of a limit-order body, if any. *)
Definition limit_rejection (r : LimitOrderRequest.t) : option string :=
  if negb (truthy (LimitOrderRequest.tokenID r)) then
    Some "tokenID is required"
  else if bool_decide (LimitOrderRequest.price r = None) then
    Some "price is required"
  else if negb (truthy (LimitOrderRequest.side r)) then
    Some "side is required (BUY or SELL)"
  else if bool_decide (LimitOrderRequest.size r = None) then
    Some "size is required"
  else if negb (paired (LimitOrderRequest.privateKey r)
                  (LimitOrderRequest.funderAddress r)) then
    Some pairing_message
  else None.

(** The first validation failure of a market-order body, if any. *)
Definition market_rejection (r : MarketOrderRequest.t) : option string :=
  if negb (truthy (MarketOrderRequest.tokenID r)) then
    Some "tokenID is required"
  else if match MarketOrderRequest.amount r with
          | None => true
          | Some amount => Qle_bool amount 0
          end then
    Some "amount is required and must be greater than 0"
  else if negb (truthy (MarketOrderRequest.side r)) then
    Some "side is required (BUY or SELL)"
  else if negb (bool_decide (MarketOrderRequest.orderType r = Some "FOK")
                || bool_decide (MarketOrderRequest.orderType r = Some "FAK"))
  then
    Some "orderType is required and must be either FOK or FAK"
  else if negb (paired (MarketOrderRequest.privateKey r)
                  (MarketOrderRequest.funderAddress r)) then
    Some pairing_message
  else None.

(** The two envelopes of the [try]/[catch] around the service call. *)
Definition envelope_200 (w : Venue) (response : string) (p : Process)
  : HttpResponse :=
  {| status := 200;
     body := {| success := Some true; data := Some response; error := None;
                timestamp := Some (Routes.now w p) |} |}.

Definition envelope_500 (w : Venue) (fallback : string) (e : JsError)
    (p : Process) : HttpResponse :=
  {| status := 500;
     body := {| success := Some false; data := None;
                error := Some (or_else (message e) fallback);
                timestamp := Some (Routes.now w p) |} |}.

Definition respond (w : Venue) (fallback : string)
    (r : Completion string * Process) : HttpResponse * Process :=
  match r with
  | (Return response, p') => (envelope_200 w response p', p')
  | (Throw e, p') => (envelope_500 w fallback e p', p')
  end.

(** The body is the envelope: [success] and [timestamp] are both there. *)
Definition is_envelope (b : JsonBody) : bool :=
  match success b, timestamp b with
  | Some _, Some _ => true
  | _, _ => false
  end.

(** What a run may do to the registry: the statics only grow, and a session
    that appears in the cache was constructed, after the wallet library
    accepted its signing key, for a pair whose cache key is its key. *)
Record grows (w : Venue) (p p' : Process) : Prop := {
  grows_instance : instance p' = instance p;
  grows_clients : clientCache p ⊆ clientCache p';
  grows_creds : credsCache p ⊆ credsCache p';
  grows_trace : trace p `prefix_of` trace p';
  grows_new : forall k c,
    clientCache p' !! k = Some c ->
    clientCache p !! k = Some c \/
    exists pk fa, k = ClobClient.cacheKey pk fa /\ bound_to c pk fa /\
                  Wallet_rejects w pk = None
}.

(** [always R m]: whatever [m] returns or throws, its final state is
    [R]-related to its initial state. *)
Definition always {A} (R : Process -> Process -> Prop) (m : Async A) : Prop :=
  forall p, R p (snd (m p)).

(** The run only adds upstream calls that satisfy [P]. *)
Definition calls_only (P : Event -> bool) (p p' : Process) : Prop :=
  exists l, trace p' = (trace p ++ l)%list /\ forallb P l = true.

Definition not_submission (e : Event) : bool := negb (is_submission e).

(** Pieces of the dispatchers, named for the statements below. *)

(** [side === "BUY" ? Side.BUY : Side.SELL] *)
Definition sideEnum_of (side : string) : Side :=
  if String.eqb side "BUY" then BUY else SELL.

(** [orderType === "GTD" ? OrderType.GTD : OrderType.GTC] *)
Definition limit_orderTypeEnum_of (orderType : string) : OrderType :=
  if String.eqb orderType "GTD" then GTD else GTC.

(** The message thrown for FOK and FAK on the limit path. *)
Definition market_path_message (orderType : string) : string :=
  "Order type " +:+ orderType
  +:+ " requires createAndPostMarketOrder which needs a different order structure. Please use GTC or GTD for limit orders.".

(** The [catch] around the upstream submission: a 404 and a message that
    mentions [toString] are replaced, anything else is rethrown. *)
Definition clarify (tokenID : string) (e : JsError) : JsError :=
  if bool_decide (response_status e = Some 404%Z) then
    Error ("Market not found for tokenID: " +:+ tokenID
           +:+ ". Please verify the tokenID is correct.")
  else if match message e with
          | Some m => includes m "toString"
          | None => false
          end
  then
    Error ("Invalid market parameters. Market may not exist or tickSize may be incorrect. Original error: "
           +:+ template (message e))
  else e.

(** The upstream signalled that the market does not exist. *)
Definition signals_not_found (e : JsError) : bool :=
  bool_decide (response_status e = Some 404%Z)
  || match data_error e with
     | Some s => includes s "not found"
     | None => false
     end.

Definition limit_userOrder (r : LimitOrderRequest.t) : UserOrder :=
  {| uo_tokenID := default "" (LimitOrderRequest.tokenID r);
     uo_price := default 0%Q (LimitOrderRequest.price r);
     uo_side := sideEnum_of (default "" (LimitOrderRequest.side r));
     uo_size := default 0%Q (LimitOrderRequest.size r) |}.

Definition limit_options (r : LimitOrderRequest.t) (tickSize : string)
  : CreateOrderOptions :=
  {| co_tickSize := tickSize;
     co_negRisk := default false (LimitOrderRequest.negRisk r) |}.



(** The tick size a request ends up with once the session [c] is there:
    its own if it has one, else the venue's answer, which must not be
    empty.  [p2] is the process after that step. *)
Definition tick_resolved (w : Venue) (tickSize : option string)
    (tokenID : string) (c : PolymarketClobClient) (p1 : Process)
    (ts : string) (p2 : Process) : Prop :=
  (truthy tickSize = true /\ tickSize = Some ts /\ p2 = p1)
  \/ (truthy tickSize = false /\
      getTickSize w (length (trace p1)) c tokenID = inr ts /\ ts <> "" /\
      p2 = log_call (EvGetTickSize c tokenID) p1).

(** A limit order is submitted with a GTC/GTD code only; the calls of a
    run that satisfy this carry [GTC] on every limit submission. *)
Definition submits_GTC_only (e : Event) : bool :=
  match e with
  | EvCreateAndPostOrder _ _ _ GTC => true
  | EvCreateAndPostOrder _ _ _ _ => false
  | _ => true
  end.

(** The two routes that take a limit-order body, each with the fallback
    text of its [catch]. *)
Definition limit_routes (w : Venue)
  : list ((LimitOrderRequest.t -> Routes.Handler) * string) :=
  [ (Routes.post_limit w, "Failed to create limit order");
    (Routes.post_legacy w, "Failed to create order") ].


(** ** Concrete worlds and requests *)

Module Scenario.

Definition apiKey : ApiKeyCreds :=
  {| key := "key-1"; secret := "secret-1"; passphrase := "pass-1" |}.

Definition environment : ProcessEnv :=
  {| PRIVATE_KEY := Some "0xabc"; FUNDER_ADDRESS := Some "0xfund";
     HOST := None; CHAIN_ID := None; SIGNATURE_TYPE := None |}.

(** A venue where everything works; the wallet library accepts a key
    exactly when it has no dash. *)
Definition venue : Venue :=
  {| env := environment;
     Wallet_rejects := fun pk =>
       if no_dash pk then None else Some (Error "invalid private key");
     createOrDeriveApiKey := fun _ _ => inr (Some apiKey);
     getTickSize := fun _ _ _ => inr "0.01";
     client_createAndPostOrder := fun _ _ _ _ _ => inr "{orderID: 1}";
     client_createAndPostMarketOrder := fun _ _ _ _ _ => inr "{orderID: 2}";
     toISOString := fun _ => "2024-01-01T00:00:00.000Z" |}.

(** The same venue, except that it refuses every order with an error
    that carries no message. *)
Definition silent_refusal : JsError :=
  {| message := None; response_status := Some 400%Z; data_error := None |}.

Definition refusing_venue : Venue :=
  {| env := environment;
     Wallet_rejects := Wallet_rejects venue;
     createOrDeriveApiKey := createOrDeriveApiKey venue;
     getTickSize := getTickSize venue;
     client_createAndPostOrder := fun _ _ _ _ _ => inl silent_refusal;
     client_createAndPostMarketOrder := fun _ _ _ _ _ => inl silent_refusal;
     toISOString := toISOString venue |}.

(** The same venue, except that it knows no market. *)
Definition not_found : JsError :=
  {| message := Some "Request failed with status code 404";
     response_status := Some 404%Z; data_error := None |}.

Definition empty_venue : Venue :=
  {| env := environment;
     Wallet_rejects := Wallet_rejects venue;
     createOrDeriveApiKey := createOrDeriveApiKey venue;
     getTickSize := fun _ _ _ => inl not_found;
     client_createAndPostOrder := client_createAndPostOrder venue;
     client_createAndPostMarketOrder := client_createAndPostMarketOrder venue;
     toISOString := toISOString venue |}.

(** The same venue, except that key derivation answers [null]. *)
Definition keyless_venue : Venue :=
  {| env := environment;
     Wallet_rejects := Wallet_rejects venue;
     createOrDeriveApiKey := fun _ _ => inr None;
     getTickSize := getTickSize venue;
     client_createAndPostOrder := client_createAndPostOrder venue;
     client_createAndPostMarketOrder := client_createAndPostMarketOrder venue;
     toISOString := toISOString venue |}.

(** [{tokenID: "0xabc", price: 0.5, side: "BUY", size: 10}] *)
Definition limit_request : LimitOrderRequest.t :=
  {| LimitOrderRequest.tokenID := Some "0xabc";
     LimitOrderRequest.price := Some (1 # 2)%Q;
     LimitOrderRequest.side := Some "BUY";
     LimitOrderRequest.size := Some 10%Q;
     LimitOrderRequest.tickSize := None;
     LimitOrderRequest.negRisk := None;
     LimitOrderRequest.orderType := None;
     LimitOrderRequest.expiration := None;
     LimitOrderRequest.privateKey := None;
     LimitOrderRequest.funderAddress := None |}.

(** The same order placed with an explicit credential pair. *)
Definition limit_request_for (pk fa : string) : LimitOrderRequest.t :=
  {| LimitOrderRequest.tokenID := Some "0xabc";
     LimitOrderRequest.price := Some (1 # 2)%Q;
     LimitOrderRequest.side := Some "BUY";
     LimitOrderRequest.size := Some 10%Q;
     LimitOrderRequest.tickSize := Some "0.01";
     LimitOrderRequest.negRisk := None;
     LimitOrderRequest.orderType := None;
     LimitOrderRequest.expiration := None;
     LimitOrderRequest.privateKey := Some pk;
     LimitOrderRequest.funderAddress := Some fa |}.

(** [{}] *)
Definition empty_request : LimitOrderRequest.t :=
  {| LimitOrderRequest.tokenID := None;
     LimitOrderRequest.price := None;
     LimitOrderRequest.side := None;
     LimitOrderRequest.size := None;
     LimitOrderRequest.tickSize := None;
     LimitOrderRequest.negRisk := None;
     LimitOrderRequest.orderType := None;
     LimitOrderRequest.expiration := None;
     LimitOrderRequest.privateKey := None;
     LimitOrderRequest.funderAddress := None |}.


(** The process after two limit orders with two explicit pairs. *)
Definition two_sessions : Process :=
  snd (Routes.post_limit venue (limit_request_for "0xbbb" "0xf2")
         (snd (Routes.post_limit venue (limit_request_for "0xaaa" "0xf1")
                 boot))).

(** A private key as the wallet library wants it: [0x] and 64 hexadecimal
    digits. *)
Definition hex_digit (a : ascii) : bool :=
  let n := nat_of_ascii a in
  ((48 <=? n)%nat && (n <=? 57)%nat)
  || ((97 <=? n)%nat && (n <=? 102)%nat)
  || ((65 <=? n)%nat && (n <=? 70)%nat).

Fixpoint all_hex (s : string) : bool :=
  match s with
  | EmptyString => true
  | String a rest => hex_digit a && all_hex rest
  end.

Definition well_formed_key (s : string) : bool :=
  match s with
  | String "0" (String "x" digits) =>
      (String.length digits =? 64)%nat && all_hex digits
  | _ => false
  end.

(** The venue where everything works, with a wallet library that accepts
    well-formed private keys only. *)
Definition strict_venue : Venue :=
  {| env := environment;
     Wallet_rejects := fun pk =>
       if well_formed_key pk then None
       else Some (Error "invalid private key");
     createOrDeriveApiKey := createOrDeriveApiKey venue;
     getTickSize := getTickSize venue;
     client_createAndPostOrder := client_createAndPostOrder venue;
     client_createAndPostMarketOrder := client_createAndPostMarketOrder venue;
     toISOString := toISOString venue |}.

Definition alice_key : string :=
  "0x0123456789abcdef0123456789abcdef0123456789abcdef0123456789abcdef".

(** A venue whose key derivation fails the first time it is called and
    works from then on. *)
Definition recovering_venue : Venue :=
  {| env := environment;
     Wallet_rejects := Wallet_rejects venue;
     createOrDeriveApiKey := fun n _ =>
       match n with
       | O => inl (Error "503 Service Unavailable")
       | S _ => inr (Some apiKey)
       end;
     getTickSize := getTickSize venue;
     client_createAndPostOrder := client_createAndPostOrder venue;
     client_createAndPostMarketOrder := client_createAndPostMarketOrder venue;
     toISOString := toISOString venue |}.

End Scenario.

(** ** [src/unnamed/part_001]: an earlier copy of the order route *)

Module EarlierRoutes.
Section WithVenue.

Variable w : Venue.

(** [router.post("/", ...)] as this file has it: the body of the legacy
    handler, without [expiration] among the order parameters. *)
Definition post_root (orderRequest : OrderRequest) : Routes.Handler :=
  fun p =>
    if negb (truthy (LimitOrderRequest.tokenID orderRequest)) then
      (status_400_error "tokenID is required", p)
    else if bool_decide (LimitOrderRequest.price orderRequest = None) then
      (status_400_error "price is required", p)
    else if negb (truthy (LimitOrderRequest.side orderRequest)) then
      (status_400_error "side is required (BUY or SELL)", p)
    else if bool_decide (LimitOrderRequest.size orderRequest = None) then
      (status_400_error "size is required", p)
    else if (truthy (LimitOrderRequest.privateKey orderRequest)
             && negb (truthy (LimitOrderRequest.funderAddress orderRequest)))
            || (negb (truthy (LimitOrderRequest.privateKey orderRequest))
                && truthy (LimitOrderRequest.funderAddress orderRequest))
    then
      (status_400_error
         "Both privateKey and funderAddress must be provided together, or neither (to use environment variables)",
       p)
    else
      let credentials :=
        if truthy (LimitOrderRequest.privateKey orderRequest)
           && truthy (LimitOrderRequest.funderAddress orderRequest)
        then
          Some {| Credentials.privateKey :=
                    default "" (LimitOrderRequest.privateKey orderRequest);
                  Credentials.funderAddress :=
                    default "" (LimitOrderRequest.funderAddress orderRequest) |}
        else None in
      match
        ClobClient.createAndPostOrder w
          {| OrderParams.tokenID :=
               default "" (LimitOrderRequest.tokenID orderRequest);
             OrderParams.price :=
               default 0%Q (LimitOrderRequest.price orderRequest);
             OrderParams.side :=
               default "" (LimitOrderRequest.side orderRequest);
             OrderParams.size :=
               default 0%Q (LimitOrderRequest.size orderRequest);
             OrderParams.expiration := None |}
          {| MarketParams.tickSize := LimitOrderRequest.tickSize orderRequest;
             MarketParams.negRisk :=
               Some (default false (LimitOrderRequest.negRisk orderRequest)) |}
          (Some (or_else (LimitOrderRequest.orderType orderRequest) "GTC"))
          credentials p
      with
      | (Return response, p') =>
          ({| status := 200;
              body := {| success := Some true; data := Some response;
                         error := None; timestamp := Some (Routes.now w p') |} |},
           p')
      | (Throw error, p') =>
          ({| status := 500;
              body := {| success := Some false; data := None;
                         error := Some (or_else (message error)
                                          "Failed to create order");
                         timestamp := Some (Routes.now w p') |} |},
           p')
      end.

End WithVenue.
End EarlierRoutes.

(** ** Vocabulary of the further properties *)

(** [keeps I]: a run that starts where [I] holds ends where [I] holds. *)
Definition keeps (I : Process -> Prop) (p p' : Process) : Prop := I p -> I p'.

(** The statics and the allocator are the same in both processes; only the
    trace may differ. *)
Definition same_registry (p p' : Process) : Prop :=
  instance p' = instance p /\ clientCache p' = clientCache p /\
  credsCache p' = credsCache p /\ nextOid p' = nextOid p.

(** Every cached session holds the credentials cached under its key. *)
Definition caches_agree (p : Process) : Prop :=
  forall k c, clientCache p !! k = Some c -> credsCache p !! k = Some (creds c).

Definition is_tick_lookup (e : Event) : bool :=
  match e with EvGetTickSize _ _ => true | _ => false end.

Definition not_tick_lookup (e : Event) : bool := negb (is_tick_lookup e).

Definition not_derivation (e : Event) : bool := negb (is_derivation e).

(** Functional updates of a limit-order body, continued. *)
Definition with_expiration (e : option Q) (r : LimitOrderRequest.t)
  : LimitOrderRequest.t :=
  {| LimitOrderRequest.tokenID := LimitOrderRequest.tokenID r;
     LimitOrderRequest.price := LimitOrderRequest.price r;
     LimitOrderRequest.side := LimitOrderRequest.side r;
     LimitOrderRequest.size := LimitOrderRequest.size r;
     LimitOrderRequest.tickSize := LimitOrderRequest.tickSize r;
     LimitOrderRequest.negRisk := LimitOrderRequest.negRisk r;
     LimitOrderRequest.orderType := LimitOrderRequest.orderType r;
     LimitOrderRequest.expiration := e;
     LimitOrderRequest.privateKey := LimitOrderRequest.privateKey r;
     LimitOrderRequest.funderAddress := LimitOrderRequest.funderAddress r |}.

Definition with_negRisk (b : option bool) (r : LimitOrderRequest.t)
  : LimitOrderRequest.t :=
  {| LimitOrderRequest.tokenID := LimitOrderRequest.tokenID r;
     LimitOrderRequest.price := LimitOrderRequest.price r;
     LimitOrderRequest.side := LimitOrderRequest.side r;
     LimitOrderRequest.size := LimitOrderRequest.size r;
     LimitOrderRequest.tickSize := LimitOrderRequest.tickSize r;
     LimitOrderRequest.negRisk := b;
     LimitOrderRequest.orderType := LimitOrderRequest.orderType r;
     LimitOrderRequest.expiration := LimitOrderRequest.expiration r;
     LimitOrderRequest.privateKey := LimitOrderRequest.privateKey r;
     LimitOrderRequest.funderAddress := LimitOrderRequest.funderAddress r |}.

Definition with_price_size (price size : Q) (r : LimitOrderRequest.t)
  : LimitOrderRequest.t :=
  {| LimitOrderRequest.tokenID := LimitOrderRequest.tokenID r;
     LimitOrderRequest.price := Some price;
     LimitOrderRequest.side := LimitOrderRequest.side r;
     LimitOrderRequest.size := Some size;
     LimitOrderRequest.tickSize := LimitOrderRequest.tickSize r;
     LimitOrderRequest.negRisk := LimitOrderRequest.negRisk r;
     LimitOrderRequest.orderType := LimitOrderRequest.orderType r;
     LimitOrderRequest.expiration := LimitOrderRequest.expiration r;
     LimitOrderRequest.privateKey := LimitOrderRequest.privateKey r;
     LimitOrderRequest.funderAddress := LimitOrderRequest.funderAddress r |}.

Definition with_credentials (pk fa : option string) (r : LimitOrderRequest.t)
  : LimitOrderRequest.t :=
  {| LimitOrderRequest.tokenID := LimitOrderRequest.tokenID r;
     LimitOrderRequest.price := LimitOrderRequest.price r;
     LimitOrderRequest.side := LimitOrderRequest.side r;
     LimitOrderRequest.size := LimitOrderRequest.size r;
     LimitOrderRequest.tickSize := LimitOrderRequest.tickSize r;
     LimitOrderRequest.negRisk := LimitOrderRequest.negRisk r;
     LimitOrderRequest.orderType := LimitOrderRequest.orderType r;
     LimitOrderRequest.expiration := LimitOrderRequest.expiration r;
     LimitOrderRequest.privateKey := pk;
     LimitOrderRequest.funderAddress := fa |}.

(** The transient client that an acquisition builds on a cache miss. *)
Definition tempClient_at (w : Venue) (pk : string) (h : option string)
    (ci : option (option Z)) (p : Process) : PolymarketClobClient :=
  {| oid := nextOid p;
     host := default (ClobClient.env_host w) h;
     chainId := default (ClobClient.env_chainId w) ci;
     signer := {| wallet_privateKey := pk |};
     creds := None; signatureType := None; funderAddress := None |}.

(** The upstream calls of one limit request, in the only order the code
    makes them: at most one key derivation, then at most one tick-size
    lookup, then at most one submission. *)
Definition limit_call_pattern (calls : list Event) : Prop :=
  exists d t s,
    calls = (d ++ t ++ s)%list /\
    (d = [] \/ exists tc, d = [EvCreateOrDeriveApiKey tc]) /\
    (t = [] \/ exists c tok, t = [EvGetTickSize c tok]) /\
    (s = [] \/ exists c o opts ot, s = [EvCreateAndPostOrder c o opts ot]).



(** * Properties *)

Open Scope list_scope.

(** ** Strings *)

Lemma append_nil (s : string) : "" +:+ s = s.
Proof. reflexivity. Qed.

Lemma append_cons (a : ascii) (s t : string) :
  String a s +:+ t = String a (s +:+ t).
Proof. reflexivity. Qed.





Lemma truthy_Some (v : option string) :
  truthy v = true -> exists s, v = Some s /\ s <> "".
Proof.
  destruct v as [s|]; simpl; [|done].
  destruct (String.eqb_spec s ""); [done|]. eauto.
Qed.

Lemma truthy_default (v : option string) :
  truthy v = true -> v = Some (default "" v) /\ default "" v <> "".
Proof. intros (s & -> & ?)%truthy_Some. done. Qed.

Lemma or_else_truthy (v : option string) (d : string) :
  truthy v = true -> or_else v d = default "" v.
Proof.
  intros (s & -> & Hs)%truthy_Some. simpl.
  by destruct (String.eqb_spec s "").
Qed.

Lemma or_else_falsy (v : option string) (d : string) :
  truthy v = false -> or_else v d = d.
Proof.
  destruct v as [s|]; simpl; [|done].
  by destruct (String.eqb s "").
Qed.

(** The cache key determines the pair as long as the signing key has no
    dash: the first dash of the key is then the separator. *)
Lemma cacheKey_inj (pk1 fa1 pk2 fa2 : string) :
  no_dash pk1 = true -> no_dash pk2 = true ->
  ClobClient.cacheKey pk1 fa1 = ClobClient.cacheKey pk2 fa2 ->
  pk1 = pk2 /\ fa1 = fa2.
Proof.
  change (ClobClient.cacheKey pk1 fa1) with (pk1 +:+ String "-" fa1).
  change (ClobClient.cacheKey pk2 fa2) with (pk2 +:+ String "-" fa2).
  revert pk2. induction pk1 as [|a pk1 IH]; intros [|b pk2];
    rewrite ?append_nil, ?append_cons; simpl.
  - intros _ _ [= ->]. done.
  - intros _ [Hb _]%andb_prop [= <- _]. done.
  - intros [Ha _]%andb_prop _ [= -> _]. done.
  - intros [_ H1]%andb_prop [_ H2]%andb_prop [= -> Hk].
    destruct (IH _ H1 H2 Hk) as [-> ->]. done.
Qed.

(** ** The session registry *)

Ltac run :=
  unfold bind, ret, throw, gets, modify, try_catch, upstream,
    new_PolymarketClobClient, set_clientCache, set_credsCache, bump_oid,
    log_call in *; simpl in *.

Lemma grows_refl (w : Venue) (p : Process) : grows w p p.
Proof. split; [done..|]. intros k c H. by left. Qed.

Lemma grows_trans (w : Venue) (p1 p2 p3 : Process) :
  grows w p1 p2 -> grows w p2 p3 -> grows w p1 p3.
Proof.
  intros [Hi1 Hc1 Hk1 Ht1 Hn1] [Hi2 Hc2 Hk2 Ht2 Hn2]. split.
  - congruence.
  - by etrans.
  - by etrans.
  - by etrans.
  - intros k c H. destruct (Hn2 k c H) as [H'|H']; [auto | by right].
Qed.

Lemma getInstanceWithCredentials_cached (w : Venue) (pk fa : string)
    (h : option string) (ci st : option (option Z)) (p : Process)
    (c : PolymarketClobClient) :
  clientCache p !! ClobClient.cacheKey pk fa = Some c ->
  ClobClient.getInstanceWithCredentials w pk fa h ci st p = (Return c, p).
Proof.
  intros H. unfold ClobClient.getInstanceWithCredentials. run. by rewrite H.
Qed.

Ltac giwc_cases w pk fa p :=
  unfold ClobClient.getInstanceWithCredentials; run;
  destruct (clientCache p !! ClobClient.cacheKey pk fa) as [c0|] eqn:Hcache;
    simpl;
    [|destruct (String.eqb pk ""); simpl;
      [|destruct (String.eqb fa ""); simpl;
        [|destruct (Wallet_rejects w pk) as [e0|] eqn:Hwallet; simpl;
          [|destruct (credsCache p !! ClobClient.cacheKey pk fa)
              as [cr0|] eqn:Hcreds; simpl;
            [|match goal with
              | |- context [createOrDeriveApiKey w ?n ?c] =>
                  destruct (createOrDeriveApiKey w n c) as [e1|[cr1|]]
                    eqn:Hderive; simpl
              end]]]]].

Lemma getInstanceWithCredentials_grows (w : Venue) (pk fa : string)
    (h : option string) (ci st : option (option Z)) (p : Process) :
  grows w p (snd (ClobClient.getInstanceWithCredentials w pk fa h ci st p)).
Proof.
  giwc_cases w pk fa p; try apply grows_refl.
  all: split; simpl; try done.
  all: try (by apply insert_subseteq).
  all: try (by apply prefix_app_r).
  all: try (intros k c; destruct (decide (ClobClient.cacheKey pk fa = k)) as [<-|Hne];
            [rewrite lookup_insert_eq; intros [= <-]; right; exists pk, fa; done
            |rewrite lookup_insert_ne by done; auto]).
  all: intros k c H; by left.
Qed.

Lemma getInstanceWithCredentials_Return (w : Venue) (pk fa : string)
    (h : option string) (ci st : option (option Z)) (p p' : Process)
    (c : PolymarketClobClient) :
  ClobClient.getInstanceWithCredentials w pk fa h ci st p = (Return c, p') ->
  clientCache p' !! ClobClient.cacheKey pk fa = Some c /\
  (clientCache p !! ClobClient.cacheKey pk fa = Some c /\ p' = p
   \/ clientCache p !! ClobClient.cacheKey pk fa = None /\
      bound_to c pk fa /\ nextOid p < oid c).
Proof.
  giwc_cases w pk fa p; intros [= <- <-]; simpl.
  - split; [done|]. by left.
  - rewrite lookup_insert_eq. split; [done|]. right. split; [done|].
    split; [done|]. simpl. lia.
  - rewrite lookup_insert_eq. split; [done|]. right. split; [done|].
    split; [done|]. simpl. lia.
Qed.

(** One acquisition talks to the venue at most once, to derive the key. *)
Lemma getInstanceWithCredentials_calls (w : Venue) (pk fa : string)
    (h : option string) (ci st : option (option Z)) (p : Process) :
  let p' := snd (ClobClient.getInstanceWithCredentials w pk fa h ci st p) in
  trace p' = trace p \/
  exists tc, trace p' = trace p ++ [EvCreateOrDeriveApiKey tc].
Proof.
  giwc_cases w pk fa p; eauto.
Qed.

(** ** Reasoning about async code *)

Section Always.
Context {R : Process -> Process -> Prop} `{!PreOrder R}.

Lemma always_ret {A} (a : A) : always R (ret a).
Proof. intros p. simpl. reflexivity. Qed.

Lemma always_throw {A} (e : JsError) : always R (@throw A e).
Proof. intros p. simpl. reflexivity. Qed.

Lemma always_gets {A} (f : Process -> A) : always R (gets f).
Proof. intros p. simpl. reflexivity. Qed.

Lemma always_bind {A B} (m : Async A) (k : A -> Async B) :
  always R m -> (forall a, always R (k a)) -> always R (bind m k).
Proof.
  intros Hm Hk p. unfold bind. specialize (Hm p).
  destruct (m p) as [[a|e] p1]; simpl in *; [|done].
  etrans; [exact Hm | apply Hk].
Qed.

Lemma always_try_catch {A} (m : Async A) (h : JsError -> Async A) :
  always R m -> (forall e, always R (h e)) -> always R (try_catch m h).
Proof.
  intros Hm Hh p. unfold try_catch. specialize (Hm p).
  destruct (m p) as [[a|e] p1]; simpl in *; [done|].
  etrans; [exact Hm | apply Hh].
Qed.

Lemma always_upstream {A} (e : Event) (answer : nat -> JsError + A) :
  (forall p, R p (log_call e p)) -> always R (upstream e answer).
Proof.
  intros H p. unfold upstream. destruct (answer _); simpl; apply H.
Qed.
End Always.

Global Instance grows_preorder (w : Venue) : PreOrder (grows w).
Proof. split; [intros p; apply grows_refl | intros p1 p2 p3; apply grows_trans]. Qed.

Global Instance calls_only_preorder (P : Event -> bool) : PreOrder (calls_only P).
Proof.
  split.
  - intros p. exists []. by rewrite app_nil_r.
  - intros p1 p2 p3 (l1 & H1 & F1) (l2 & H2 & F2). exists (l1 ++ l2). split.
    + by rewrite H2, H1, app_assoc.
    + by rewrite forallb_app, F1, F2.
Qed.

Lemma calls_only_weaken (P Q : Event -> bool) (p p' : Process) :
  (forall e, P e = true -> Q e = true) ->
  calls_only P p p' -> calls_only Q p p'.
Proof.
  intros HPQ (l & Hl & F). exists l. split; [done|].
  apply forallb_forall. intros e He.
  apply HPQ. by eapply forallb_forall in F.
Qed.

Lemma grows_log_call (w : Venue) (e : Event) (p : Process) :
  grows w p (log_call e p).
Proof.
  split; simpl; try done.
  - by apply prefix_app_r.
  - intros k c H. by left.
Qed.

Lemma calls_only_log_call (P : Event -> bool) (e : Event) (p : Process) :
  P e = true -> calls_only P p (log_call e p).
Proof. intros H. exists [e]. simpl. by rewrite H. Qed.

Lemma getInstanceWithCredentials_derives (w : Venue) (pk fa : string)
    (h : option string) (ci st : option (option Z)) :
  always (calls_only is_derivation)
    (ClobClient.getInstanceWithCredentials w pk fa h ci st).
Proof.
  intros p.
  destruct (getInstanceWithCredentials_calls w pk fa h ci st p) as [H|[tc H]].
  - exists []. by rewrite app_nil_r.
  - by exists [EvCreateOrDeriveApiKey tc].
Qed.

Lemma getInstance_grows (w : Venue) : always (grows w) (ClobClient.getInstance w).
Proof.
  intros p. unfold ClobClient.getInstance. run.
  destruct (instance p); [apply grows_refl|].
  destruct (truthy (PRIVATE_KEY (env w))); simpl; [|apply grows_refl].
  destruct (truthy (FUNDER_ADDRESS (env w))); simpl; [|apply grows_refl].
  apply getInstanceWithCredentials_grows.
Qed.

Lemma getInstance_derives (w : Venue) :
  always (calls_only is_derivation) (ClobClient.getInstance w).
Proof.
  intros p. unfold ClobClient.getInstance. run.
  destruct (instance p); [reflexivity|].
  destruct (truthy (PRIVATE_KEY (env w))); simpl; [|reflexivity].
  destruct (truthy (FUNDER_ADDRESS (env w))); simpl; [|reflexivity].
  apply getInstanceWithCredentials_derives.
Qed.

Lemma clientFor_grows (w : Venue) (cr : option Credentials.t) :
  always (grows w) (ClobClient.clientFor w cr).
Proof.
  destruct cr; simpl; [|apply getInstance_grows].
  intros p. apply getInstanceWithCredentials_grows.
Qed.

Lemma clientFor_derives (w : Venue) (cr : option Credentials.t) :
  always (calls_only is_derivation) (ClobClient.clientFor w cr).
Proof.
  destruct cr; simpl; [|apply getInstance_derives].
  apply getInstanceWithCredentials_derives.
Qed.

(** ** The handlers, in normal form *)

Lemma paired_spec (pk fa : option string) :
  (truthy pk && negb (truthy fa)) || (negb (truthy pk) && truthy fa)
  = negb (paired pk fa).
Proof. unfold paired. by destruct (truthy pk), (truthy fa). Qed.

Ltac handler_cases := repeat first [reflexivity | case_match].

Lemma post_limit_unfold (w : Venue) (r : LimitOrderRequest.t) (p : Process) :
  Routes.post_limit w r p =
  match limit_rejection r with
  | Some msg => (status_400_error msg, p)
  | None => respond w "Failed to create limit order" (limit_call w r p)
  end.
Proof.
  destruct r. unfold Routes.post_limit, limit_rejection. rewrite paired_spec.
  unfold limit_call, limit_orderParams, limit_marketParams, credentials_of.
  simpl. handler_cases.
Qed.

Lemma post_legacy_unfold (w : Venue) (r : OrderRequest) (p : Process) :
  Routes.post_legacy w r p =
  match limit_rejection r with
  | Some msg => (status_400_error msg, p)
  | None => respond w "Failed to create order" (limit_call w r p)
  end.
Proof.
  destruct r. unfold Routes.post_legacy, limit_rejection. rewrite paired_spec.
  unfold limit_call, limit_orderParams, limit_marketParams, credentials_of.
  simpl. handler_cases.
Qed.

Lemma FOK_FAK_spec (ot : option string) :
  negb (truthy ot) || negb (bool_decide (default "" ot ∈ ["FOK"; "FAK"]))
  = negb (bool_decide (ot = Some "FOK") || bool_decide (ot = Some "FAK")).
Proof.
  destruct ot as [s|]; simpl; [|done].
  destruct (String.eqb_spec s "") as [->|Hs]; simpl; [done|].
  destruct (decide (s = "FOK")) as [->|H1]; [done|].
  destruct (decide (s = "FAK")) as [->|H2]; [done|].
  rewrite !bool_decide_eq_false_2; [done|congruence|congruence|].
  intros [?|[?|?%elem_of_nil]%elem_of_cons]%elem_of_cons; congruence.
Qed.

Lemma post_market_unfold (w : Venue) (r : MarketOrderRequest.t) (p : Process) :
  Routes.post_market w r p =
  match market_rejection r with
  | Some msg => (status_400_error msg, p)
  | None => respond w "Failed to create market order" (market_call w r p)
  end.
Proof.
  destruct r. unfold Routes.post_market, market_rejection.
  rewrite paired_spec, FOK_FAK_spec.
  unfold market_call, market_orderParams, credentials_of.
  simpl. handler_cases.
Qed.

(** ** The market resolver and the dispatchers *)

Create HintDb always_db.

Ltac always_step :=
  first
    [ solve [eauto with always_db]
    | apply always_ret | apply always_throw | apply always_gets
    | apply always_bind; [|intros ?]
    | apply always_try_catch; [|intros ?]
    | apply always_upstream
    | case_match ].

Ltac always_auto := repeat always_step.

#[global] Hint Resolve getInstance_grows clientFor_grows
  getInstance_derives clientFor_derives : always_db.

Lemma getMarketInfo_grows (w : Venue) (tok : string)
    (client : option PolymarketClobClient) :
  always (grows w) (ClobClient.getMarketInfo w tok client).
Proof.
  unfold ClobClient.getMarketInfo. always_auto.
  intros p. apply grows_log_call.
Qed.

#[global] Hint Resolve getMarketInfo_grows : always_db.

Lemma getMarketInfo_unfold (w : Venue) (tok : string)
    (c : PolymarketClobClient) (p : Process) :
  ClobClient.getMarketInfo w tok (Some c) p =
  match getTickSize w (length (trace p)) c tok with
  | inr ts =>
      (Return {| mi_tickSize := ts; mi_exists := true |},
       log_call (EvGetTickSize c tok) p)
  | inl e =>
      (Throw
         (if bool_decide (response_status e = Some 404%Z)
             || match data_error e with
                | Some s => includes s "not found"
                | None => false
                end
          then Error ("Market not found for tokenID: " +:+ tok
                      +:+ ". Please verify the tokenID is correct and the market exists.")
          else e),
       log_call (EvGetTickSize c tok) p)
  end.
Proof.
  unfold ClobClient.getMarketInfo. run.
  destruct (getTickSize w _ c tok) as [e|ts]; simpl; [|done].
  by destruct (_ || _).
Qed.

Lemma createAndPostOrder_grows (w : Venue) (op : OrderParams.t)
    (mp : MarketParams.t) (ot : option string) (cr : option Credentials.t) :
  always (grows w) (ClobClient.createAndPostOrder w op mp ot cr).
Proof.
  unfold ClobClient.createAndPostOrder. always_auto.
  all: intros p; apply grows_log_call.
Qed.

Lemma createAndPostMarketOrder_grows (w : Venue) (op : MarketOrderParams.t)
    (mp : MarketParams.t) (ot : string) (cr : option Credentials.t) :
  always (grows w) (ClobClient.createAndPostMarketOrder w op mp ot cr).
Proof.
  unfold ClobClient.createAndPostMarketOrder. always_auto.
  all: intros p; apply grows_log_call.
Qed.

Lemma respond_state (w : Venue) (fallback : string)
    (r : Completion string * Process) :
  snd (respond w fallback r) = snd r.
Proof. by destruct r as [[a|e] p]. Qed.

Lemma serves_grows (w : Venue) (p p' : Process) :
  serves w p p' -> grows w p p'.
Proof.
  intros [r p0|r p0|r p0].
  - rewrite post_limit_unfold. destruct (limit_rejection r); [apply grows_refl|].
    rewrite respond_state. apply createAndPostOrder_grows.
  - rewrite post_market_unfold. destruct (market_rejection r); [apply grows_refl|].
    rewrite respond_state. apply createAndPostMarketOrder_grows.
  - rewrite post_legacy_unfold. destruct (limit_rejection r); [apply grows_refl|].
    rewrite respond_state. apply createAndPostOrder_grows.
Qed.

Lemma run_grows (w : Venue) (p p' : Process) :
  rtc (serves w) p p' -> grows w p p'.
Proof.
  induction 1 as [p|p1 p2 p3 H _ IH]; [apply grows_refl|].
  eapply grows_trans; [by apply serves_grows | exact IH].
Qed.

(** ** Invariants of the registry *)

Lemma reachable_bound (w : Venue) (p : Process) (k : string)
    (c : PolymarketClobClient) :
  reachable w p -> clientCache p !! k = Some c ->
  exists pk fa, k = ClobClient.cacheKey pk fa /\ bound_to c pk fa /\
                Wallet_rejects w pk = None.
Proof.
  intros Hreach Hk. apply run_grows in Hreach.
  destruct (grows_new _ _ _ Hreach k c Hk) as [H|H]; [|done].
  unfold boot in H. simpl in H. by rewrite lookup_empty in H.
Qed.

(** The static [instance] is never assigned. *)
Lemma reachable_instance (w : Venue) (p : Process) :
  reachable w p -> instance p = None.
Proof. intros H%run_grows. apply (grows_instance _ _ _ H). Qed.

(** X18.  Where the registry is sound: two distinct credential pairs whose
    signing keys contain no dash have distinct cache keys.  In a process
    that serves its requests one after the other, with a wallet library
    that refuses signing keys containing a dash, the sessions cached for two
    such pairs are bound to exactly their own pair, are distinct, and stay
    in the cache (as do the cached credentials) whatever is served later. *)
Theorem X18_dash_free_pairs_have_own_sessions (w : Venue) (p : Process)
    (pk1 fa1 pk2 fa2 : string) :
  no_dash pk1 = true -> no_dash pk2 = true -> (pk1, fa1) <> (pk2, fa2) ->
  ClobClient.cacheKey pk1 fa1 <> ClobClient.cacheKey pk2 fa2 /\
  ((forall pk, no_dash pk = false -> Wallet_rejects w pk <> None) ->
   reachable w p ->
   forall c1 c2,
     clientCache p !! ClobClient.cacheKey pk1 fa1 = Some c1 ->
     clientCache p !! ClobClient.cacheKey pk2 fa2 = Some c2 ->
     bound_to c1 pk1 fa1 /\ bound_to c2 pk2 fa2 /\ c1 <> c2 /\
     forall p', rtc (serves w) p p' ->
       clientCache p' !! ClobClient.cacheKey pk1 fa1 = Some c1 /\
       clientCache p' !! ClobClient.cacheKey pk2 fa2 = Some c2 /\
       credsCache p ⊆ credsCache p').
Proof.
  intros D1 D2 Hne.
  assert (Hkeys : ClobClient.cacheKey pk1 fa1 <> ClobClient.cacheKey pk2 fa2).
  { intros Hk. destruct (cacheKey_inj _ _ _ _ D1 D2 Hk). congruence. }
  split; [exact Hkeys|].
  intros Hhex Hreach c1 c2 H1 H2.
  assert (Hexact : forall pk fa c, no_dash pk = true ->
             clientCache p !! ClobClient.cacheKey pk fa = Some c ->
             bound_to c pk fa).
  { intros pk fa c D Hc.
    destruct (reachable_bound w p _ c Hreach Hc) as (pk' & fa' & Hk & Hb & Hw).
    assert (D' : no_dash pk' = true).
    { destruct (no_dash pk') eqn:E; [done|]. by apply Hhex in E. }
    destruct (cacheKey_inj _ _ _ _ D D' Hk) as [-> ->]. exact Hb. }
  pose proof (Hexact _ _ _ D1 H1) as B1.
  pose proof (Hexact _ _ _ D2 H2) as B2.
  repeat split; try apply B1; try apply B2.
  - intros ->. destruct B1 as [S1 F1], B2 as [S2 F2].
    rewrite S1 in S2. rewrite F1 in F2. congruence.
  - eapply lookup_weaken; [exact H1|]. by apply (grows_clients w), run_grows.
  - eapply lookup_weaken; [exact H2|]. by apply (grows_clients w), run_grows.
  - by apply (grows_creds w), run_grows.
Qed.

Lemma X18_dash_free_pairs_have_own_sessions_witness :
  no_dash "0xaaa" = true /\ no_dash "0xbbb" = true /\
  ("0xaaa", "0xf1") <> ("0xbbb", "0xf2") /\
  reachable Scenario.venue Scenario.two_sessions /\
  (exists c1 c2,
     clientCache Scenario.two_sessions !! ClobClient.cacheKey "0xaaa" "0xf1"
       = Some c1 /\
     clientCache Scenario.two_sessions !! ClobClient.cacheKey "0xbbb" "0xf2"
       = Some c2 /\
     bound_to c1 "0xaaa" "0xf1" /\ bound_to c2 "0xbbb" "0xf2" /\ c1 <> c2) /\
  ClobClient.cacheKey "0xaaa" "0xf1" <> ClobClient.cacheKey "0xbbb" "0xf2".
Proof.
  assert (Hreach : reachable Scenario.venue Scenario.two_sessions).
  { eapply rtc_l; [apply serves_limit|].
    eapply rtc_l; [apply serves_limit|]. apply rtc_refl. }
  assert (Hhex : forall pk, no_dash pk = false ->
                   Wallet_rejects Scenario.venue pk <> None).
  { intros pk E. simpl. by rewrite E. }
  destruct (X18_dash_free_pairs_have_own_sessions Scenario.venue Scenario.two_sessions
              "0xaaa" "0xf1" "0xbbb" "0xf2") as [Hk Hs];
    [reflexivity | reflexivity | congruence |].
  destruct (clientCache Scenario.two_sessions
              !! ClobClient.cacheKey "0xaaa" "0xf1") as [c1|] eqn:E1;
    [|by vm_compute in E1].
  destruct (clientCache Scenario.two_sessions
              !! ClobClient.cacheKey "0xbbb" "0xf2") as [c2|] eqn:E2;
    [|by vm_compute in E2].
  destruct (Hs Hhex Hreach c1 c2 eq_refl eq_refl) as (B1 & B2 & Hne & _).
  repeat split; try done. by exists c1, c2.
Defined.

(** A [null] answer of the key derivation is stored in the credentials
    cache before it is tested: the acquisition that received it throws, and
    the next one for the same pair finds the cached [null], skips the test
    and builds a session without credentials.  The venue is still asked
    only once. *)
Remark null_credentials_are_cached :
  exists e p1 c p2,
    ClobClient.getInstanceWithCredentials Scenario.keyless_venue
      "0xaaa" "0xf1" None None None boot = (Throw e, p1) /\
    message e = Some "API key creation returned null/undefined" /\
    ClobClient.getInstanceWithCredentials Scenario.keyless_venue
      "0xaaa" "0xf1" None None None p1 = (Return c, p2) /\
    creds c = None /\ trace p2 = trace p1 /\ length (trace p1) = 1.
Proof.
  destruct (ClobClient.getInstanceWithCredentials Scenario.keyless_venue
              "0xaaa" "0xf1" None None None boot) as [r1 p1] eqn:E1.
  vm_compute in E1. injection E1 as <- <-.
  eexists _, _, _, _. split; [reflexivity|]. split; [reflexivity|].
  split; [by vm_compute|]. by repeat split.
Qed.

(** C5 (as amended).  When an acquisition for a pair returns a session, the next
    acquisition for the same pair returns the same object and leaves the
    process as it is; over the two calls the venue is asked to derive the
    API key at most once. *)
Theorem C5_same_session_single_derivation (w : Venue) (pk fa : string)
    (h h' : option string) (ci st ci' st' : option (option Z))
    (p p1 : Process) (c : PolymarketClobClient) :
  ClobClient.getInstanceWithCredentials w pk fa h ci st p = (Return c, p1) ->
  ClobClient.getInstanceWithCredentials w pk fa h' ci' st' p1 = (Return c, p1)
  /\ exists calls,
       trace p1 = trace p ++ calls /\
       length (filter (fun e => is_derivation e = true) calls) <= 1.
Proof.
  intros H. split.
  - apply getInstanceWithCredentials_cached.
    by apply getInstanceWithCredentials_Return in H as [H _].
  - pose proof (getInstanceWithCredentials_calls w pk fa h ci st p) as Hc.
    rewrite H in Hc. simpl in Hc. destruct Hc as [Hc|[tc Hc]].
    + exists []. rewrite app_nil_r. split; [done|]. simpl. lia.
    + exists [EvCreateOrDeriveApiKey tc]. split; [done|]. simpl. lia.
Qed.

Lemma C5_same_session_single_derivation_witness :
  exists c p1,
    ClobClient.getInstanceWithCredentials Scenario.venue "0xaaa" "0xf1"
      None None None boot = (Return c, p1) /\
    ClobClient.getInstanceWithCredentials Scenario.venue "0xaaa" "0xf1"
      None None None p1 = (Return c, p1) /\
    exists calls,
      trace p1 = trace boot ++ calls /\
      length (filter (fun e => is_derivation e = true) calls) <= 1.
Proof.
  destruct (ClobClient.getInstanceWithCredentials Scenario.venue "0xaaa" "0xf1"
              None None None boot) as [r p1] eqn:E.
  vm_compute in E. injection E as <- <-.
  eexists _, _. split; [reflexivity|].
  eapply (C5_same_session_single_derivation Scenario.venue "0xaaa" "0xf1"
            None None None None None None boot).
  by vm_compute.
Defined.

(** C5 (as stated) fails: the venue below fails the first key derivation
    and answers the second.  Two acquisitions in a row for the same pair
    then ask the venue twice, and only the second returns a session. *)
Lemma C5_counterexample :
  exists e p1 c p2 temp1 temp2,
    ClobClient.getInstanceWithCredentials Scenario.recovering_venue
      "0xaaa" "0xf1" None None None boot = (Throw e, p1) /\
    ClobClient.getInstanceWithCredentials Scenario.recovering_venue
      "0xaaa" "0xf1" None None None p1 = (Return c, p2) /\
    trace p2 = [EvCreateOrDeriveApiKey temp1; EvCreateOrDeriveApiKey temp2].
Proof.
  destruct (ClobClient.getInstanceWithCredentials Scenario.recovering_venue
              "0xaaa" "0xf1" None None None boot) as [r1 p1] eqn:E1.
  vm_compute in E1. injection E1 as <- <-.
  eexists _, _, _, _, _, _. split; [reflexivity|].
  split; by vm_compute.
Qed.

(** ** The limit dispatcher, step by step *)

Lemma market_path_message_kept (tok ot : string) :
  ot = "FOK" \/ ot = "FAK" ->
  clarify tok (Error (market_path_message ot)) = Error (market_path_message ot).
Proof. by intros [->| ->]; vm_compute. Qed.

Lemma eqb_FOK_FAK (ot : string) :
  String.eqb ot "FOK" || String.eqb ot "FAK" = true ->
  ot = "FOK" \/ ot = "FAK".
Proof.
  intros [H|H]%orb_prop; apply String.eqb_eq in H; auto.
Qed.

(** Once the session is there and a tick size is known, the limit
    dispatcher either refuses FOK and FAK or makes exactly one upstream
    submission. *)
Lemma limit_call_resolved (w : Venue) (r : LimitOrderRequest.t)
    (p p1 p2 : Process) (c : PolymarketClobClient) (ts : string) :
  ClobClient.clientFor w
    (credentials_of (LimitOrderRequest.privateKey r)
       (LimitOrderRequest.funderAddress r)) p = (Return c, p1) ->
  tick_resolved w (LimitOrderRequest.tickSize r)
    (default "" (LimitOrderRequest.tokenID r)) c p1 ts p2 ->
  limit_call w r p =
  let ot := or_else (LimitOrderRequest.orderType r) "GTC" in
  if String.eqb ot "FOK" || String.eqb ot "FAK" then
    (Throw (Error (market_path_message ot)), p2)
  else
    let ev := EvCreateAndPostOrder c (limit_userOrder r) (limit_options r ts)
                (limit_orderTypeEnum_of ot) in
    match client_createAndPostOrder w (length (trace p2)) c
            (limit_userOrder r) (limit_options r ts)
            (limit_orderTypeEnum_of ot) with
    | inr d => (Return d, log_call ev p2)
    | inl e =>
        (Throw (clarify (default "" (LimitOrderRequest.tokenID r)) e),
         log_call ev p2)
    end.
Proof.
  intros Hc Ht.
  assert (Hts : String.eqb ts "" = false).
  { destruct Ht as [(Ht & Hs & _)|(_ & _ & Hts & _)].
    - rewrite Hs in Ht. simpl in Ht. by destruct (String.eqb ts "").
    - by apply String.eqb_neq. }
  assert (Hts' : bool_decide (Some ts = Some "") = false).
  { apply bool_decide_eq_false_2. apply String.eqb_neq in Hts. congruence. }
  unfold limit_call, ClobClient.createAndPostOrder. run. rewrite Hc.
  destruct Ht as [(Ht & Hsome & ->)|(Ht & Hget & _ & ->)]; rewrite Ht; simpl.
  - rewrite Hsome. simpl. rewrite Hts, Hts'. simpl.
    destruct (String.eqb _ "FOK" || String.eqb _ "FAK") eqn:E; simpl.
    + by destruct (eqb_FOK_FAK _ E) as [-> | ->].
    + unfold limit_userOrder, limit_options, sideEnum_of,
        limit_orderTypeEnum_of, clarify.
      destruct (client_createAndPostOrder _ _ _ _ _ _) as [e|d]; [|done].
      simpl. by repeat case_match.
  - rewrite getMarketInfo_unfold, Hget. simpl. rewrite Hts, Hts'. simpl.
    destruct (String.eqb _ "FOK" || String.eqb _ "FAK") eqn:E; simpl.
    + by destruct (eqb_FOK_FAK _ E) as [-> | ->].
    + unfold limit_userOrder, limit_options, sideEnum_of,
        limit_orderTypeEnum_of, clarify.
      destruct (client_createAndPostOrder _ _ _ _ _ _) as [e|d]; [|done].
      simpl. by repeat case_match.
Qed.

Lemma limit_call_no_client (w : Venue) (r : LimitOrderRequest.t)
    (p p1 : Process) (e : JsError) :
  ClobClient.clientFor w
    (credentials_of (LimitOrderRequest.privateKey r)
       (LimitOrderRequest.funderAddress r)) p = (Throw e, p1) ->
  limit_call w r p = (Throw e, p1).
Proof.
  intros Hc. unfold limit_call, ClobClient.createAndPostOrder. run.
  by rewrite Hc.
Qed.

(** The tick size is absent and the venue fails to give one: the request
    dies with the resolver's error, wrapped. *)
Lemma limit_call_no_market (w : Venue) (r : LimitOrderRequest.t)
    (p p1 : Process) (c : PolymarketClobClient) (e : JsError) :
  let tok := default "" (LimitOrderRequest.tokenID r) in
  ClobClient.clientFor w
    (credentials_of (LimitOrderRequest.privateKey r)
       (LimitOrderRequest.funderAddress r)) p = (Return c, p1) ->
  truthy (LimitOrderRequest.tickSize r) = false ->
  getTickSize w (length (trace p1)) c tok = inl e ->
  limit_call w r p =
  (Throw (Error
     ("Failed to get market info: "
      +:+ template (message
            (if signals_not_found e
             then Error ("Market not found for tokenID: " +:+ tok
                         +:+ ". Please verify the tokenID is correct and the market exists.")
             else e))
      +:+ ". Please provide tickSize manually or use a valid tokenID.")),
   log_call (EvGetTickSize c tok) p1).
Proof.
  intros tok Hc Ht Hget. unfold limit_call, ClobClient.createAndPostOrder.
  run. rewrite Hc, Ht. simpl.
  rewrite getMarketInfo_unfold. fold tok. rewrite Hget. reflexivity.
Qed.

Lemma limit_call_empty_tick (w : Venue) (r : LimitOrderRequest.t)
    (p p1 : Process) (c : PolymarketClobClient) :
  let tok := default "" (LimitOrderRequest.tokenID r) in
  ClobClient.clientFor w
    (credentials_of (LimitOrderRequest.privateKey r)
       (LimitOrderRequest.funderAddress r)) p = (Return c, p1) ->
  truthy (LimitOrderRequest.tickSize r) = false ->
  getTickSize w (length (trace p1)) c tok = inr "" ->
  limit_call w r p =
  (Throw (Error "tickSize is required but could not be determined from market"),
   log_call (EvGetTickSize c tok) p1).
Proof.
  intros tok Hc Ht Hget. unfold limit_call, ClobClient.createAndPostOrder.
  run. rewrite Hc, Ht. simpl.
  rewrite getMarketInfo_unfold. fold tok. rewrite Hget. reflexivity.
Qed.

(** Whatever the venue does, a single limit call ends in one of the four
    ways above. *)
Lemma limit_call_cases (w : Venue) (r : LimitOrderRequest.t) (p : Process) :
  let tok := default "" (LimitOrderRequest.tokenID r) in
  let cr := credentials_of (LimitOrderRequest.privateKey r)
              (LimitOrderRequest.funderAddress r) in
  (exists e p1, ClobClient.clientFor w cr p = (Throw e, p1))
  \/ exists c p1, ClobClient.clientFor w cr p = (Return c, p1) /\
       ((exists ts p2, tick_resolved w (LimitOrderRequest.tickSize r) tok c p1 ts p2)
        \/ (truthy (LimitOrderRequest.tickSize r) = false /\
            (getTickSize w (length (trace p1)) c tok = inr ""
             \/ exists e, getTickSize w (length (trace p1)) c tok = inl e))).
Proof.
  intros tok cr. destruct (ClobClient.clientFor w cr p) as [[c|e] p1] eqn:Hc.
  2: { left. eauto. }
  right. exists c, p1. split; [done|].
  destruct (truthy (LimitOrderRequest.tickSize r)) eqn:Ht.
  - left. destruct (truthy_default _ Ht) as [Hs _].
    eexists _, _. left. eauto.
  - destruct (getTickSize w (length (trace p1)) c tok) as [e|ts] eqn:Hget.
    + right. eauto.
    + destruct (decide (ts = "")) as [->|Hne]; [right; eauto|].
      left. exists ts, (log_call (EvGetTickSize c tok) p1). right. done.
Qed.

(** ** The limit routes *)

Lemma limit_route_unfold (w : Venue) (h : LimitOrderRequest.t -> Routes.Handler)
    (fb : string) (r : LimitOrderRequest.t) (p : Process) :
  (h, fb) ∈ limit_routes w ->
  h r p = match limit_rejection r with
          | Some msg => (status_400_error msg, p)
          | None => respond w fb (limit_call w r p)
          end.
Proof.
  unfold limit_routes. rewrite !elem_of_cons, elem_of_nil.
  intros [[= -> ->]|[[= -> ->]|[]]].
  - apply post_limit_unfold.
  - apply post_legacy_unfold.
Qed.

Lemma clientFor_quiet (w : Venue) (cr : option Credentials.t)
    (p p1 : Process) (x : Completion PolymarketClobClient) :
  ClobClient.clientFor w cr p = (x, p1) -> calls_only not_submission p p1.
Proof.
  intros Hc. pose proof (clientFor_derives w cr p) as H. rewrite Hc in H.
  eapply calls_only_weaken; [|exact H]. by intros [].
Qed.

Lemma limit_call_quiet_on_market_types (w : Venue) (r : LimitOrderRequest.t)
    (p : Process) (ot : string) :
  LimitOrderRequest.orderType r = Some ot -> ot = "FOK" \/ ot = "FAK" ->
  exists e p',
    limit_call w r p = (Throw e, p') /\ calls_only not_submission p p'.
Proof.
  intros Hot Hmkt.
  assert (Hor : or_else (LimitOrderRequest.orderType r) "GTC" = ot).
  { rewrite Hot. by destruct Hmkt as [-> | ->]. }
  destruct (limit_call_cases w r p)
    as [(e & p1 & Hc)|(c & p1 & Hc & [(ts & p2 & Ht)|(Ht & [Hg|[e Hg]])])].
  - exists e, p1. split; [by apply limit_call_no_client|].
    by eapply clientFor_quiet.
  - rewrite (limit_call_resolved w r p p1 p2 c ts Hc Ht). cbv zeta.
    rewrite Hor.
    replace (String.eqb ot "FOK" || String.eqb ot "FAK") with true
      by (by destruct Hmkt as [-> | ->]).
    eexists _, _. split; [done|].
    transitivity p1.
    + by eapply clientFor_quiet.
    + destruct Ht as [(_ & _ & ->)|(_ & _ & _ & ->)]; [reflexivity|].
      by apply calls_only_log_call.
  - rewrite (limit_call_empty_tick w r p p1 c Hc Ht Hg).
    eexists _, _. split; [done|].
    transitivity p1.
    + by eapply clientFor_quiet.
    + by apply calls_only_log_call.
  - rewrite (limit_call_no_market w r p p1 c e Hc Ht Hg).
    eexists _, _. split; [done|].
    transitivity p1.
    + by eapply clientFor_quiet.
    + by apply calls_only_log_call.
Qed.

(** C2 (as amended).  A limit-order body that passes validation and asks
    for FOK or FAK is never submitted: on both limit routes the answer is
    the 500 failure envelope and the run makes no submission call.  Once
    the session is acquired and a tick size is known, the error is the one
    that sends the caller to [createAndPostMarketOrder]. *)
Theorem C2_market_types_refused_late (w : Venue)
    (h : LimitOrderRequest.t -> Routes.Handler) (fb : string)
    (r : LimitOrderRequest.t) (p : Process) (ot : string) :
  (h, fb) ∈ limit_routes w ->
  limit_rejection r = None ->
  LimitOrderRequest.orderType r = Some ot -> ot = "FOK" \/ ot = "FAK" ->
  status (fst (h r p)) = 500%Z /\
  is_envelope (body (fst (h r p))) = true /\
  calls_only not_submission p (snd (h r p)) /\
  includes (market_path_message ot) "requires createAndPostMarketOrder" = true /\
  forall c p1 ts p2,
    ClobClient.clientFor w
      (credentials_of (LimitOrderRequest.privateKey r)
         (LimitOrderRequest.funderAddress r)) p = (Return c, p1) ->
    tick_resolved w (LimitOrderRequest.tickSize r)
      (default "" (LimitOrderRequest.tokenID r)) c p1 ts p2 ->
    h r p = (envelope_500 w fb (Error (market_path_message ot)) p2, p2).
Proof.
  intros Hh Hrej Hot Hmkt. rewrite (limit_route_unfold w h fb r p Hh), Hrej.
  destruct (limit_call_quiet_on_market_types w r p ot Hot Hmkt)
    as (e & p' & Hcall & Hquiet).
  rewrite Hcall. simpl. repeat split; try done.
  - by destruct Hmkt as [-> | ->]; vm_compute.
  - intros c p1 ts p2 Hc Ht.
    rewrite (limit_call_resolved w r p p1 p2 c ts Hc Ht) in Hcall.
    cbv zeta in Hcall.
    replace (or_else (LimitOrderRequest.orderType r) "GTC") with ot in Hcall
      by (rewrite Hot; by destruct Hmkt as [-> | ->]).
    replace (String.eqb ot "FOK" || String.eqb ot "FAK") with true in Hcall
      by (by destruct Hmkt as [-> | ->]).
    by injection Hcall as <- <-.
Qed.

Lemma C2_market_types_refused_late_witness :
  let r := with_orderType (Some "FOK") Scenario.limit_request in
  status (fst (Routes.post_limit Scenario.venue r boot)) = 500%Z /\
  error (body (fst (Routes.post_limit Scenario.venue r boot)))
  = Some (market_path_message "FOK") /\
  calls_only not_submission boot (snd (Routes.post_limit Scenario.venue r boot)).
Proof.
  intros r.
  destruct (C2_market_types_refused_late Scenario.venue
              (Routes.post_limit Scenario.venue) "Failed to create limit order"
              r boot "FOK")
    as (H500 & _ & Hquiet & _ & Hmsg).
  - unfold limit_routes. apply elem_of_cons. by left.
  - reflexivity.
  - reflexivity.
  - by left.
  - split; [exact H500|]. split; [|exact Hquiet].
    destruct (ClobClient.clientFor Scenario.venue
                (credentials_of (LimitOrderRequest.privateKey r)
                   (LimitOrderRequest.funderAddress r)) boot)
      as [[c|e] p1] eqn:Hc; [|by vm_compute in Hc].
    rewrite (Hmsg c p1 "0.01" (log_call (EvGetTickSize c "0xabc") p1) eq_refl);
      [reflexivity|].
    right. by repeat split.
Defined.

(** C2 (as stated) fails: the FOK order below is answered with status 500,
    not 400, after the venue has been asked for an API key and for the tick
    size. *)
Lemma C2_counterexample :
  let r := with_orderType (Some "FOK") Scenario.limit_request in
  let out := Routes.post_limit Scenario.venue r boot in
  LimitOrderRequest.orderType r = Some "FOK" /\
  status (fst out) <> 400%Z /\
  exists temp session,
    trace (snd out)
    = [EvCreateOrDeriveApiKey temp; EvGetTickSize session "0xabc"].
Proof.
  split; [reflexivity|]. split; [by vm_compute|].
  eexists _, _. by vm_compute.
Qed.



Lemma limit_call_GTC_only (w : Venue) (r : LimitOrderRequest.t) (p : Process) :
  limit_orderTypeEnum_of (or_else (LimitOrderRequest.orderType r) "GTC") = GTC ->
  calls_only submits_GTC_only p (snd (limit_call w r p)).
Proof.
  intros Hgtc.
  assert (Hclient : forall x p1,
            ClobClient.clientFor w
              (credentials_of (LimitOrderRequest.privateKey r)
                 (LimitOrderRequest.funderAddress r)) p = (x, p1) ->
            calls_only submits_GTC_only p p1).
  { intros x p1 Hc.
    pose proof (clientFor_derives w
                  (credentials_of (LimitOrderRequest.privateKey r)
                     (LimitOrderRequest.funderAddress r)) p) as H.
    rewrite Hc in H. eapply calls_only_weaken; [|exact H]. by intros []. }
  destruct (limit_call_cases w r p)
    as [(e & p1 & Hc)|(c & p1 & Hc & [(ts & p2 & Ht)|(Ht & [Hg|[e Hg]])])].
  - rewrite (limit_call_no_client w r p p1 e Hc). by eapply Hclient.
  - rewrite (limit_call_resolved w r p p1 p2 c ts Hc Ht). cbv zeta.
    assert (H12 : calls_only submits_GTC_only p p2).
    { transitivity p1; [by eapply Hclient|].
      destruct Ht as [(_ & _ & ->)|(_ & _ & _ & ->)]; [reflexivity|].
      by apply calls_only_log_call. }
    destruct (_ || _); [done|]. rewrite Hgtc.
    destruct (client_createAndPostOrder _ _ _ _ _ _); simpl;
      (transitivity p2; [exact H12 | by apply calls_only_log_call]).
  - rewrite (limit_call_empty_tick w r p p1 c Hc Ht Hg). simpl.
    transitivity p1; [by eapply Hclient | by apply calls_only_log_call].
  - rewrite (limit_call_no_market w r p p1 c e Hc Ht Hg). simpl.
    transitivity p1; [by eapply Hclient | by apply calls_only_log_call].
Qed.

Lemma limit_call_orderType (w : Venue) (r : LimitOrderRequest.t) (s : string) :
  s <> "GTD" -> s <> "FOK" -> s <> "FAK" ->
  limit_call w (with_orderType (Some s) r)
  = limit_call w (with_orderType (Some "GTC") r).
Proof.
  intros H1 H2 H3. unfold limit_call, ClobClient.createAndPostOrder. simpl.
  destruct (String.eqb s ""); [done|].
  apply String.eqb_neq in H1, H2, H3. by rewrite H1, H2, H3.
Qed.

(** C10.  On both limit routes an order type that is a string other than
    GTD, FOK and FAK is handled exactly as GTC is: same reply, same final
    process; any limit submission of the run carries the code GTC, and when
    the session, the tick size and the venue all answer, the reply is the
    success envelope. *)
Theorem C10_unknown_order_type_runs_as_GTC (w : Venue)
    (h : LimitOrderRequest.t -> Routes.Handler) (fb : string)
    (r : LimitOrderRequest.t) (p : Process) (s : string) :
  (h, fb) ∈ limit_routes w ->
  s <> "GTD" -> s <> "FOK" -> s <> "FAK" ->
  let r' := with_orderType (Some s) r in
  h r' p = h (with_orderType (Some "GTC") r) p /\
  calls_only submits_GTC_only p (snd (h r' p)) /\
  forall c p1 ts p2 d,
    limit_rejection r = None ->
    ClobClient.clientFor w
      (credentials_of (LimitOrderRequest.privateKey r)
         (LimitOrderRequest.funderAddress r)) p = (Return c, p1) ->
    tick_resolved w (LimitOrderRequest.tickSize r)
      (default "" (LimitOrderRequest.tokenID r)) c p1 ts p2 ->
    client_createAndPostOrder w (length (trace p2)) c (limit_userOrder r)
      (limit_options r ts) GTC = inr d ->
    let p3 := log_call (EvCreateAndPostOrder c (limit_userOrder r)
                          (limit_options r ts) GTC) p2 in
    h r' p = (envelope_200 w d p3, p3).
Proof.
  intros Hh H1 H2 H3 r'.
  assert (Heq : h r' p = h (with_orderType (Some "GTC") r) p).
  { rewrite !(limit_route_unfold w h fb _ p Hh).
    change (limit_rejection r') with (limit_rejection r).
    change (limit_rejection (with_orderType (Some "GTC") r))
      with (limit_rejection r).
    unfold r'. by rewrite limit_call_orderType. }
  split; [exact Heq|]. split.
  - rewrite Heq, (limit_route_unfold w h fb _ p Hh).
    destruct (limit_rejection _); [reflexivity|].
    rewrite respond_state. by apply limit_call_GTC_only.
  - intros c p1 ts p2 d Hrej Hc Ht Hd p3.
    rewrite Heq, (limit_route_unfold w h fb _ p Hh).
    change (limit_rejection (with_orderType (Some "GTC") r))
      with (limit_rejection r).
    rewrite Hrej.
    rewrite (limit_call_resolved w (with_orderType (Some "GTC") r)
               p p1 p2 c ts Hc Ht). simpl.
    change (limit_userOrder (with_orderType (Some "GTC") r))
      with (limit_userOrder r).
    change (limit_options (with_orderType (Some "GTC") r) ts)
      with (limit_options r ts).
    change (limit_orderTypeEnum_of "GTC") with GTC.
    by rewrite Hd.
Qed.

Lemma C10_unknown_order_type_runs_as_GTC_witness :
  let r' := with_orderType (Some "XYZ") Scenario.limit_request in
  Routes.post_limit Scenario.venue r' boot
  = Routes.post_limit Scenario.venue
      (with_orderType (Some "GTC") Scenario.limit_request) boot /\
  status (fst (Routes.post_limit Scenario.venue r' boot)) = 200%Z /\
  calls_only submits_GTC_only boot
    (snd (Routes.post_limit Scenario.venue r' boot)).
Proof.
  intros r'.
  destruct (C10_unknown_order_type_runs_as_GTC Scenario.venue
              (Routes.post_limit Scenario.venue) "Failed to create limit order"
              Scenario.limit_request boot "XYZ")
    as (Heq & Hgtc & _).
  - unfold limit_routes. apply elem_of_cons. by left.
  - congruence.
  - congruence.
  - congruence.
  - split; [exact Heq|]. split; [by vm_compute | exact Hgtc].
Defined.

Lemma limit_call_side (w : Venue) (r : LimitOrderRequest.t) (s : string) :
  s <> "BUY" ->
  limit_call w (with_side (Some s) r) = limit_call w (with_side (Some "SELL") r).
Proof.
  intros Hs%String.eqb_neq. unfold limit_call, ClobClient.createAndPostOrder.
  simpl. by rewrite Hs.
Qed.

(** C6 (as amended).  On both limit routes a body whose side is absent or
    empty is answered 400 and the process is left untouched, so nothing is
    submitted; a body that is not answered 400 has a side.  The handlers do
    not look further: a side other than BUY is handled exactly as SELL. *)
Theorem C6_side_must_be_present (w : Venue)
    (h : LimitOrderRequest.t -> Routes.Handler) (fb : string)
    (r : LimitOrderRequest.t) (p : Process) (s : string) :
  (h, fb) ∈ limit_routes w ->
  (truthy (LimitOrderRequest.side r) = false ->
   status (fst (h r p)) = 400%Z /\ snd (h r p) = p) /\
  (status (fst (h r p)) <> 400%Z -> truthy (LimitOrderRequest.side r) = true) /\
  (s <> "" -> s <> "BUY" ->
   h (with_side (Some s) r) p = h (with_side (Some "SELL") r) p).
Proof.
  intros Hh.
  assert (Hfalsy : truthy (LimitOrderRequest.side r) = false ->
            status (fst (h r p)) = 400%Z /\ snd (h r p) = p).
  { intros Hside. rewrite (limit_route_unfold w h fb r p Hh).
    unfold limit_rejection. rewrite Hside. by repeat case_match. }
  split; [exact Hfalsy|]. split.
  - intros H400. destruct (truthy (LimitOrderRequest.side r)); [done|].
    by destruct Hfalsy.
  - intros Hne Hbuy. rewrite !(limit_route_unfold w h fb _ p Hh).
    assert (Hrej : limit_rejection (with_side (Some s) r)
                   = limit_rejection (with_side (Some "SELL") r)).
    { unfold limit_rejection, with_side. simpl.
      by destruct (String.eqb_spec s ""). }
    rewrite Hrej. by rewrite limit_call_side.
Qed.

Lemma C6_side_must_be_present_witness :
  status (fst (Routes.post_limit Scenario.venue
                 (with_side None Scenario.limit_request) boot)) = 400%Z /\
  snd (Routes.post_limit Scenario.venue
         (with_side None Scenario.limit_request) boot) = boot /\
  Routes.post_limit Scenario.venue
    (with_side (Some "HOLD") (with_side None Scenario.limit_request)) boot
  = Routes.post_limit Scenario.venue
      (with_side (Some "SELL") (with_side None Scenario.limit_request)) boot.
Proof.
  destruct (C6_side_must_be_present Scenario.venue
              (Routes.post_limit Scenario.venue) "Failed to create limit order"
              (with_side None Scenario.limit_request) boot "HOLD")
    as (H1 & _ & H3).
  - unfold limit_routes. apply elem_of_cons. by left.
  - destruct (H1 eq_refl) as [Hs Hp]. split; [exact Hs|]. split; [exact Hp|].
    apply H3; congruence.
Defined.

(** C6 (as stated) fails: the side ["HOLD"] is neither BUY nor SELL, yet the
    order passes validation, is submitted as a SELL and answered 200. *)
Lemma C6_counterexample :
  let r := with_side (Some "HOLD") Scenario.limit_request in
  let out := Routes.post_limit Scenario.venue r boot in
  status (fst out) = 200%Z /\
  exists c o opts ot,
    last (trace (snd out)) = Some (EvCreateAndPostOrder c o opts ot) /\
    uo_side o = SELL.
Proof.
  split; [by vm_compute|]. eexists _, _, _, _. split; by vm_compute.
Qed.

(** ** The legacy route against the limit route *)

(** C9 (as amended).  The legacy route and the limit route validate alike,
    call the service alike and leave the process in the same state; their
    replies have the same status, [success], [data] and [timestamp].  The
    replies are equal, except when the service fails with an error that has
    no message: the limit route then says ["Failed to create limit order"]
    and the legacy route ["Failed to create order"]. *)
Theorem C9_legacy_matches_limit_up_to_fallback (w : Venue)
    (r : LimitOrderRequest.t) (p : Process) :
  let a := Routes.post_limit w r p in
  let b := Routes.post_legacy w r p in
  snd b = snd a /\
  status (fst b) = status (fst a) /\
  success (body (fst b)) = success (body (fst a)) /\
  data (body (fst b)) = data (body (fst a)) /\
  timestamp (body (fst b)) = timestamp (body (fst a)) /\
  (b = a \/
   exists e p',
     limit_rejection r = None /\
     limit_call w r p = (Throw e, p') /\ truthy (message e) = false /\
     a = (envelope_500 w "Failed to create limit order" e p', p') /\
     b = (envelope_500 w "Failed to create order" e p', p') /\
     error (body (fst a)) = Some "Failed to create limit order" /\
     error (body (fst b)) = Some "Failed to create order").
Proof.
  intros a b. unfold a, b. rewrite post_limit_unfold, post_legacy_unfold.
  destruct (limit_rejection r) as [msg|]; [by repeat split; try left|].
  destruct (limit_call w r p) as [[d|e] p'] eqn:Hcall; simpl;
    [by repeat split; try left|].
  repeat split.
  destruct (truthy (message e)) eqn:Hm.
  - left. unfold envelope_500. by rewrite !(or_else_truthy _ _ Hm).
  - right. exists e, p'. repeat split; try done.
    + by rewrite (or_else_falsy _ _ Hm).
    + by rewrite (or_else_falsy _ _ Hm).
Qed.

(** C9 (as stated) fails: when the venue refuses the order with an error
    that carries no message, the two routes answer the same body with
    different error texts. *)
Lemma C9_counterexample :
  Routes.post_legacy Scenario.refusing_venue Scenario.limit_request boot
  <> Routes.post_limit Scenario.refusing_venue Scenario.limit_request boot /\
  error (body (fst (Routes.post_limit Scenario.refusing_venue
                      Scenario.limit_request boot)))
  = Some "Failed to create limit order" /\
  error (body (fst (Routes.post_legacy Scenario.refusing_venue
                      Scenario.limit_request boot)))
  = Some "Failed to create order".
Proof.
  split; [|split; by vm_compute].
  intros H. apply (f_equal (fun x => error (body (fst x)))) in H.
  by vm_compute in H.
Qed.

(** ** The credential rule *)



Lemma getInstance_default_pair (w : Venue) (p : Process) :
  instance p = None ->
  truthy (PRIVATE_KEY (env w)) = true ->
  truthy (FUNDER_ADDRESS (env w)) = true ->
  ClobClient.getInstance w p =
  ClobClient.getInstanceWithCredentials w
    (default "" (PRIVATE_KEY (env w))) (default "" (FUNDER_ADDRESS (env w)))
    (Some (ClobClient.env_host w)) (Some (ClobClient.env_chainId w))
    (Some (ClobClient.env_signatureType w)) p.
Proof.
  intros Hi Hpk Hfa. unfold ClobClient.getInstance. run.
  by rewrite Hi, Hpk, Hfa.
Qed.

(** ** The shape of the replies *)

(** C3 (the code departs from it).  The limit route answers the empty body
    [{}] with status 400 and the body [{error: "tokenID is required"}]: no
    [success], no [timestamp]. *)
Theorem C3_validation_reply_lacks_envelope :
  Routes.post_limit Scenario.venue Scenario.empty_request boot
  = ({| status := 400;
        body := {| success := None; data := None;
                   error := Some "tokenID is required";
                   timestamp := None |} |}, boot) /\
  is_envelope (body (fst (Routes.post_limit Scenario.venue
                            Scenario.empty_request boot))) = false.
Proof. split; reflexivity. Qed.


Lemma rejection_lacks_envelope (msg : string) :
  status (status_400_error msg) = 400%Z /\
  is_envelope (body (status_400_error msg)) = false.
Proof. by split. Qed.

(** ** The market route *)



(** * Further properties *)

(** ** What every request preserves *)

Section Preserved.
Context (w : Venue) (R : Process -> Process -> Prop) `{!PreOrder R}.
Hypothesis R_log_call : forall e p, R p (log_call e p).
Hypothesis R_acquire : forall pk fa h ci st,
  always R (ClobClient.getInstanceWithCredentials w pk fa h ci st).

Lemma getInstance_preserves : always R (ClobClient.getInstance w).
Proof.
  intros p. unfold ClobClient.getInstance. run.
  destruct (instance p); [reflexivity|].
  destruct (truthy (PRIVATE_KEY (env w))); simpl; [|reflexivity].
  destruct (truthy (FUNDER_ADDRESS (env w))); simpl; [|reflexivity].
  apply R_acquire.
Qed.

Lemma clientFor_preserves (cr : option Credentials.t) :
  always R (ClobClient.clientFor w cr).
Proof.
  destruct cr; simpl; [apply R_acquire | apply getInstance_preserves].
Qed.

Lemma getMarketInfo_preserves (tok : string)
    (client : option PolymarketClobClient) :
  always R (ClobClient.getMarketInfo w tok client).
Proof.
  unfold ClobClient.getMarketInfo.
  apply always_bind; [destruct client|intros c].
  - apply always_ret.
  - apply getInstance_preserves.
  - apply always_try_catch.
    + apply always_bind; [|intros ?; apply always_ret].
      apply always_upstream. intros p. apply R_log_call.
    + intros e. case_match; apply always_throw.
Qed.

Lemma createAndPostOrder_preserves (op : OrderParams.t)
    (mp : MarketParams.t) (ot : option string) (cr : option Credentials.t) :
  always R (ClobClient.createAndPostOrder w op mp ot cr).
Proof.
  unfold ClobClient.createAndPostOrder.
  apply always_bind; [apply clientFor_preserves|intros c].
  apply always_bind; [|intros ts].
  - case_match; [|apply always_ret].
    apply always_try_catch; [|intros ?; apply always_throw].
    apply always_bind; [apply getMarketInfo_preserves|].
    intros ?. apply always_ret.
  - case_match; [apply always_throw|].
    apply always_try_catch.
    + case_match; [apply always_throw|].
      apply always_upstream. intros p. apply R_log_call.
    + intros e. repeat case_match; apply always_throw.
Qed.

Lemma createAndPostMarketOrder_preserves (op : MarketOrderParams.t)
    (mp : MarketParams.t) (ot : string) (cr : option Credentials.t) :
  always R (ClobClient.createAndPostMarketOrder w op mp ot cr).
Proof.
  unfold ClobClient.createAndPostMarketOrder.
  apply always_bind; [apply clientFor_preserves|intros c].
  apply always_bind; [|intros ts].
  - case_match; [|apply always_ret].
    apply always_bind; [apply getMarketInfo_preserves|].
    intros ?. apply always_ret.
  - case_match; [apply always_throw|].
    apply always_try_catch.
    + apply always_upstream. intros p. apply R_log_call.
    + intros e. repeat case_match; apply always_throw.
Qed.

Lemma serves_preserves (p p' : Process) : serves w p p' -> R p p'.
Proof.
  intros [r p0|r p0|r p0].
  - rewrite post_limit_unfold. destruct (limit_rejection r); [reflexivity|].
    rewrite respond_state. apply createAndPostOrder_preserves.
  - rewrite post_market_unfold. destruct (market_rejection r); [reflexivity|].
    rewrite respond_state. apply createAndPostMarketOrder_preserves.
  - rewrite post_legacy_unfold. destruct (limit_rejection r); [reflexivity|].
    rewrite respond_state. apply createAndPostOrder_preserves.
Qed.

Lemma run_preserves (p p' : Process) : rtc (serves w) p p' -> R p p'.
Proof.
  induction 1 as [p|p1 p2 p3 H _ IH]; [reflexivity|].
  etrans; [by apply serves_preserves | exact IH].
Qed.
End Preserved.

Global Instance keeps_preorder (I : Process -> Prop) : PreOrder (keeps I).
Proof. split; [by intros p H | intros p1 p2 p3 H1 H2 H; auto]. Qed.

(** ** The registry, continued *)

Lemma acquire_keeps_caches_agree (w : Venue) (pk fa : string)
    (h : option string) (ci st : option (option Z)) :
  always (keeps caches_agree)
    (ClobClient.getInstanceWithCredentials w pk fa h ci st).
Proof.
  intros p Hagree. giwc_cases w pk fa p; try exact Hagree.
  all: intros k c; unfold caches_agree in Hagree; simpl.
  - destruct (decide (ClobClient.cacheKey pk fa = k)) as [<-|Hne].
    + rewrite lookup_insert_eq. intros [= <-]. simpl. exact Hcreds.
    + rewrite lookup_insert_ne by done. apply Hagree.
  - destruct (decide (ClobClient.cacheKey pk fa = k)) as [<-|Hne].
    + rewrite lookup_insert_eq. intros [= <-]. simpl.
      by rewrite lookup_insert_eq.
    + rewrite !lookup_insert_ne by done. apply Hagree.
  - destruct (decide (ClobClient.cacheKey pk fa = k)) as [<-|Hne].
    + intros Hk. rewrite Hcache in Hk. done.
    + rewrite lookup_insert_ne by done. apply Hagree.
Qed.

(** X5.  In a process that serves its requests one after the other, the two
    caches agree: a session cached under a key was built with the
    credentials cached under that key (in particular the key is in the
    credentials cache). *)
Theorem X5_caches_agree (w : Venue) (p : Process) :
  reachable w p -> caches_agree p.
Proof.
  intros Hreach.
  apply (run_preserves w (keeps caches_agree)) in Hreach.
  - apply Hreach. intros k c H. unfold boot in H. simpl in H.
    by rewrite lookup_empty in H.
  - by intros e p0 H.
  - apply acquire_keeps_caches_agree.
Qed.

Lemma X5_caches_agree_witness :
  reachable Scenario.venue Scenario.two_sessions /\
  caches_agree Scenario.two_sessions /\
  exists c, clientCache Scenario.two_sessions
              !! ClobClient.cacheKey "0xaaa" "0xf1" = Some c /\
            credsCache Scenario.two_sessions
              !! ClobClient.cacheKey "0xaaa" "0xf1" = Some (creds c).
Proof.
  assert (Hreach : reachable Scenario.venue Scenario.two_sessions).
  { eapply rtc_l; [apply serves_limit|].
    eapply rtc_l; [apply serves_limit|]. apply rtc_refl. }
  pose proof (X5_caches_agree Scenario.venue Scenario.two_sessions Hreach) as H.
  split; [exact Hreach|]. split; [exact H|].
  destruct (clientCache Scenario.two_sessions
              !! ClobClient.cacheKey "0xaaa" "0xf1") as [c|] eqn:E;
    [|by vm_compute in E].
  exists c. split; [done|]. by apply H.
Defined.

(** X2.  An acquisition that throws caches no session: the session cache
    and the static [instance] are as before.  The credentials cache is as
    before too, except after a [null] answer of the key derivation, which
    has been stored under the pair's key. *)
Theorem X2_failed_acquisition_caches_no_session (w : Venue) (pk fa : string)
    (h : option string) (ci st : option (option Z)) (p p' : Process)
    (e : JsError) :
  ClobClient.getInstanceWithCredentials w pk fa h ci st p = (Throw e, p') ->
  clientCache p' = clientCache p /\ instance p' = instance p /\
  clientCache p !! ClobClient.cacheKey pk fa = None /\
  (credsCache p' = credsCache p \/
   credsCache p' = <[ClobClient.cacheKey pk fa := None]> (credsCache p) /\
   e = Error "API key creation returned null/undefined").
Proof.
  giwc_cases w pk fa p; intros [= <- <-]; simpl;
    (repeat split; first [done | by left | by right]).
Qed.

Lemma X2_failed_acquisition_caches_no_session_witness :
  exists e p',
    ClobClient.getInstanceWithCredentials Scenario.venue "not-hex" "0xf1"
      None None None boot = (Throw e, p') /\
    clientCache p' = clientCache boot /\ credsCache p' = credsCache boot.
Proof.
  destruct (ClobClient.getInstanceWithCredentials Scenario.venue "not-hex"
              "0xf1" None None None boot) as [[c|e] p'] eqn:E;
    [by vm_compute in E|].
  exists e, p'. split; [done|].
  destruct (X2_failed_acquisition_caches_no_session _ _ _ _ _ _ _ _ _ E)
    as (Hc & _ & _ & [Hk|[_ He]]).
  - done.
  - vm_compute in E. by injection E as <- _.
Defined.

(** X3.  When the venue fails to derive the API key, the acquisition throws
    an error whose message embeds the venue's message (["Unknown error"] if
    it has none) and caches nothing; the next acquisition for the pair
    therefore asks the venue again. *)
Theorem X3_derivation_failure_is_retried (w : Venue) (pk fa : string)
    (h : option string) (ci st : option (option Z)) (p : Process)
    (err : JsError) :
  let temp := tempClient_at w pk h ci p in
  let p' := log_call (EvCreateOrDeriveApiKey temp) (bump_oid p) in
  clientCache p !! ClobClient.cacheKey pk fa = None ->
  credsCache p !! ClobClient.cacheKey pk fa = None ->
  pk <> "" -> fa <> "" -> Wallet_rejects w pk = None ->
  createOrDeriveApiKey w (length (trace p)) temp = inl err ->
  ClobClient.getInstanceWithCredentials w pk fa h ci st p
  = (Throw (Error
       ("Failed to create API key: "
        +:+ or_else (message err) "Unknown error"
        +:+ ". Please check your privateKey and ensure your wallet is properly configured.")),
     p') /\
  same_registry (bump_oid p) p' /\
  forall h' ci' st',
    trace (snd (ClobClient.getInstanceWithCredentials w pk fa h' ci' st' p'))
    = trace p' ++ [EvCreateOrDeriveApiKey (tempClient_at w pk h' ci' p')].
Proof.
  intros temp p' Hcache Hcreds Hpk%String.eqb_neq Hfa%String.eqb_neq Hw Hd.
  split; [|split; [done|]].
  - unfold ClobClient.getInstanceWithCredentials. run.
    rewrite Hcache, Hpk, Hfa, Hw. simpl. rewrite Hcreds. simpl.
    fold (tempClient_at w pk h ci p). fold temp. by rewrite Hd.
  - intros h' ci' st'. unfold ClobClient.getInstanceWithCredentials. run.
    rewrite Hcache, Hpk, Hfa, Hw. simpl. rewrite Hcreds. simpl.
    match goal with
    | |- context [createOrDeriveApiKey w ?n ?c] =>
        destruct (createOrDeriveApiKey w n c) as [e1|[cr1|]]
    end; reflexivity.
Qed.

Lemma X3_derivation_failure_is_retried_witness :
  let down :=
    {| env := Scenario.environment;
       Wallet_rejects := Wallet_rejects Scenario.venue;
       createOrDeriveApiKey := fun _ _ => inl (Error "503 Service Unavailable");
       getTickSize := getTickSize Scenario.venue;
       client_createAndPostOrder := client_createAndPostOrder Scenario.venue;
       client_createAndPostMarketOrder :=
         client_createAndPostMarketOrder Scenario.venue;
       toISOString := toISOString Scenario.venue |} in
  exists e p',
    ClobClient.getInstanceWithCredentials down "0xaaa" "0xf1" None None None
      boot = (Throw e, p') /\
    message e = Some "Failed to create API key: 503 Service Unavailable. Please check your privateKey and ensure your wallet is properly configured." /\
    length (trace (snd (ClobClient.getInstanceWithCredentials down "0xaaa"
                          "0xf1" None None None p'))) = 2.
Proof.
  intros down.
  destruct (X3_derivation_failure_is_retried down "0xaaa" "0xf1" None None None
              boot (Error "503 Service Unavailable"))
    as (H1 & _ & H2); try reflexivity; try congruence.
  eexists _, _. split; [exact H1|]. split; [reflexivity|].
  by rewrite H2.
Defined.

(** X4.  A session that an acquisition builds on a cache miss is made from
    the pair it was asked for, the venue configuration it was given (the
    environment's defaults for omitted arguments) and the credentials now
    cached under the pair's key; it is stored under that key, and the keys
    were checked to be non-empty and accepted by the wallet library. *)
Theorem X4_fresh_session (w : Venue) (pk fa : string)
    (h : option string) (ci st : option (option Z)) (p p' : Process)
    (c : PolymarketClobClient) :
  clientCache p !! ClobClient.cacheKey pk fa = None ->
  ClobClient.getInstanceWithCredentials w pk fa h ci st p = (Return c, p') ->
  c = {| oid := S (nextOid p);
         host := default (ClobClient.env_host w) h;
         chainId := default (ClobClient.env_chainId w) ci;
         signer := {| wallet_privateKey := pk |};
         creds := creds c;
         signatureType := Some (default (ClobClient.env_signatureType w) st);
         funderAddress := Some fa |} /\
  credsCache p' !! ClobClient.cacheKey pk fa = Some (creds c) /\
  clientCache p' = <[ClobClient.cacheKey pk fa := c]> (clientCache p) /\
  nextOid p' = S (S (nextOid p)) /\
  pk <> "" /\ fa <> "" /\ Wallet_rejects w pk = None.
Proof.
  intros Hmiss. unfold ClobClient.getInstanceWithCredentials. run.
  rewrite Hmiss.
  destruct (String.eqb_spec pk ""); simpl; [done|].
  destruct (String.eqb_spec fa ""); simpl; [done|].
  destruct (Wallet_rejects w pk) as [e0|] eqn:Hw; simpl; [done|].
  destruct (credsCache p !! ClobClient.cacheKey pk fa) as [cr0|] eqn:Hcreds;
    simpl.
  - intros [= <- <-]. simpl. by repeat split.
  - match goal with
    | |- context [createOrDeriveApiKey w ?n ?c] =>
        destruct (createOrDeriveApiKey w n c) as [e1|[cr1|]]
    end; simpl; [done| |done].
    intros [= <- <-]. simpl. rewrite lookup_insert_eq. by repeat split.
Qed.

Lemma X4_fresh_session_witness :
  exists c p',
    ClobClient.getInstanceWithCredentials Scenario.venue "0xaaa" "0xf1"
      (Some "https://clob.example") None None boot = (Return c, p') /\
    host c = "https://clob.example" /\ chainId c = Some 137%Z /\
    signatureType c = Some (Some 1%Z) /\ creds c = Some Scenario.apiKey /\
    funderAddress c = Some "0xf1".
Proof.
  destruct (ClobClient.getInstanceWithCredentials Scenario.venue "0xaaa" "0xf1"
              (Some "https://clob.example") None None boot)
    as [[c|e] p'] eqn:E; [|by vm_compute in E].
  destruct (X4_fresh_session Scenario.venue "0xaaa" "0xf1"
              (Some "https://clob.example") None None boot p' c eq_refl E)
    as (Hc & Hcr & _).
  exists c, p'. split; [done|].
  assert (creds c = Some Scenario.apiKey) as Hk.
  { vm_compute in E. by injection E as <- _. }
  rewrite Hc. simpl. by rewrite Hk.
Defined.

(** ** The calls of one limit request *)

Lemma same_registry_refl (p : Process) : same_registry p p.
Proof. by repeat split. Qed.

Lemma same_registry_log_call (e : Event) (p : Process) :
  same_registry p (log_call e p).
Proof. by repeat split. Qed.

(** After the session step, a limit call only talks to the venue: at most
    one tick-size lookup (none if the body has a tick size), then at most
    one submission, of the body's order with the resolved tick size. *)
Lemma limit_call_shape (w : Venue) (r : LimitOrderRequest.t) (p : Process) :
  let tok := default "" (LimitOrderRequest.tokenID r) in
  let ot := or_else (LimitOrderRequest.orderType r) "GTC" in
  let x := ClobClient.clientFor w
             (credentials_of (LimitOrderRequest.privateKey r)
                (LimitOrderRequest.funderAddress r)) p in
  let p' := snd (limit_call w r p) in
  exists t s,
    trace p' = trace (snd x) ++ t ++ s /\
    same_registry (snd x) p' /\
    (t = [] \/
     truthy (LimitOrderRequest.tickSize r) = false /\
     exists c, fst x = Return c /\ t = [EvGetTickSize c tok]) /\
    (s = [] \/
     exists c ts,
       fst x = Return c /\
       s = [EvCreateAndPostOrder c (limit_userOrder r) (limit_options r ts)
              (limit_orderTypeEnum_of ot)] /\
       (truthy (LimitOrderRequest.tickSize r) = true ->
        LimitOrderRequest.tickSize r = Some ts)).
Proof.
  intros tok ot x p'. unfold x, p'.
  destruct (limit_call_cases w r p)
    as [(e & p1 & Hc)|(c & p1 & Hc & [(ts & p2 & Ht)|(Ht & [Hg|[e Hg]])])].
  - rewrite (limit_call_no_client w r p p1 e Hc), Hc. simpl.
    exists [], []. rewrite app_nil_r. split; [done|].
    split; [apply same_registry_refl|]. split; by left.
  - rewrite (limit_call_resolved w r p p1 p2 c ts Hc Ht), Hc. cbv zeta. simpl.
    assert (Hstep : exists t, trace p2 = trace p1 ++ t /\ same_registry p1 p2 /\
              (t = [] \/ truthy (LimitOrderRequest.tickSize r) = false /\
                         t = [EvGetTickSize c tok]) /\
              (truthy (LimitOrderRequest.tickSize r) = true ->
               LimitOrderRequest.tickSize r = Some ts)).
    { destruct Ht as [(Ht & Hs & ->)|(Ht & _ & _ & ->)].
      - exists []. rewrite app_nil_r. split; [done|].
        split; [apply same_registry_refl|]. split; [by left|done].
      - exists [EvGetTickSize c tok]. split; [done|].
        split; [apply same_registry_log_call|]. split; [by right|].
        intros H. congruence. }
    destruct Hstep as (t & Htr & Hreg & Hshape & Hts).
    assert (Ht' : t = [] \/ truthy (LimitOrderRequest.tickSize r) = false /\
                   exists c0, Return c = Return c0 /\ t = [EvGetTickSize c0 tok]).
    { destruct Hshape as [->|[? ->]]; [by left|right; eauto]. }
    destruct (_ || _).
    + exists t, []. simpl. rewrite app_nil_r. repeat split; try apply Hreg; try done.
      by left.
    + destruct Hreg as (R1 & R2 & R3 & R4).
      destruct (client_createAndPostOrder _ _ _ _ _ _); simpl;
        (eexists t, [_]; rewrite Htr, <- app_assoc;
         split; [done|]; split; [by repeat split|]; split; [done|];
         right; eauto 10).
  - rewrite (limit_call_empty_tick w r p p1 c Hc Ht Hg), Hc. simpl.
    exists [EvGetTickSize c tok], []. split; [done|].
    split; [apply same_registry_log_call|]. split; [right; eauto|by left].
  - rewrite (limit_call_no_market w r p p1 c e Hc Ht Hg), Hc. simpl.
    exists [EvGetTickSize c tok], []. split; [done|].
    split; [apply same_registry_log_call|]. split; [right; eauto|by left].
Qed.

Lemma clientFor_trace (w : Venue) (cr : option Credentials.t) (p : Process) :
  let p1 := snd (ClobClient.clientFor w cr p) in
  trace p1 = trace p \/ exists tc, trace p1 = trace p ++ [EvCreateOrDeriveApiKey tc].
Proof.
  destruct cr as [cr|]; simpl.
  - apply getInstanceWithCredentials_calls.
  - unfold ClobClient.getInstance. run.
    destruct (instance p); [by left|].
    destruct (truthy (PRIVATE_KEY (env w))); simpl; [|by left].
    destruct (truthy (FUNDER_ADDRESS (env w))); simpl; [|by left].
    apply getInstanceWithCredentials_calls.
Qed.

(** A limit call returns only what the venue answered to its submission. *)
Lemma limit_call_Return (w : Venue) (r : LimitOrderRequest.t)
    (p p' : Process) (d : string) :
  limit_call w r p = (Return d, p') ->
  exists c p1 ts p2,
    ClobClient.clientFor w
      (credentials_of (LimitOrderRequest.privateKey r)
         (LimitOrderRequest.funderAddress r)) p = (Return c, p1) /\
    tick_resolved w (LimitOrderRequest.tickSize r)
      (default "" (LimitOrderRequest.tokenID r)) c p1 ts p2 /\
    let ot := limit_orderTypeEnum_of
                (or_else (LimitOrderRequest.orderType r) "GTC") in
    client_createAndPostOrder w (length (trace p2)) c (limit_userOrder r)
      (limit_options r ts) ot = inr d /\
    p' = log_call (EvCreateAndPostOrder c (limit_userOrder r)
                     (limit_options r ts) ot) p2.
Proof.
  intros Hret.
  destruct (limit_call_cases w r p)
    as [(e & p1 & Hc)|(c & p1 & Hc & [(ts & p2 & Ht)|(Ht & [Hg|[e Hg]])])].
  - by rewrite (limit_call_no_client w r p p1 e Hc) in Hret.
  - rewrite (limit_call_resolved w r p p1 p2 c ts Hc Ht) in Hret.
    cbv zeta in Hret. destruct (_ || _); [done|].
    destruct (client_createAndPostOrder _ _ _ _ _ _) as [e|d'] eqn:Hpost;
      [done|].
    injection Hret as <- <-. exists c, p1, ts, p2. by repeat split.
  - by rewrite (limit_call_empty_tick w r p p1 c Hc Ht Hg) in Hret.
  - by rewrite (limit_call_no_market w r p p1 c e Hc Ht Hg) in Hret.
Qed.

(** X11.  On both limit routes one request makes its upstream calls in a
    fixed order and never repeats one: at most one key derivation, then at
    most one tick-size lookup, then at most one submission.  A reply with
    status 200 means that the submission was made and that [data] is what
    the venue answered to it. *)
Theorem X11_one_pass_over_the_venue (w : Venue)
    (h : LimitOrderRequest.t -> Routes.Handler) (fb : string)
    (r : LimitOrderRequest.t) (p : Process) :
  (h, fb) ∈ limit_routes w ->
  (exists calls,
     trace (snd (h r p)) = trace p ++ calls /\ limit_call_pattern calls) /\
  (status (fst (h r p)) = 200%Z ->
   exists c o opts ot d p2,
     snd (h r p) = log_call (EvCreateAndPostOrder c o opts ot) p2 /\
     client_createAndPostOrder w (length (trace p2)) c o opts ot = inr d /\
     data (body (fst (h r p))) = Some d).
Proof.
  intros Hh. rewrite (limit_route_unfold w h fb r p Hh).
  destruct (limit_rejection r) as [msg|].
  { split; [|done]. exists []. rewrite app_nil_r. split; [done|].
    exists [], [], []. repeat split; by left. }
  split.
  - rewrite respond_state.
    destruct (limit_call_shape w r p) as (t & s & Htr & _ & Ht & Hs).
    destruct (clientFor_trace w
                (credentials_of (LimitOrderRequest.privateKey r)
                   (LimitOrderRequest.funderAddress r)) p) as [Hd|[tc Hd]].
    + exists (t ++ s). rewrite Htr, Hd. split; [done|].
      exists [], t, s. split; [done|]. split; [by left|]. split.
      * destruct Ht as [->|(_ & c & _ & ->)]; [by left|right; eauto].
      * destruct Hs as [->|(c & ts & _ & -> & _)]; [by left|right; eauto].
    + exists ([EvCreateOrDeriveApiKey tc] ++ t ++ s).
      rewrite Htr, Hd, <- app_assoc. split; [done|].
      exists [EvCreateOrDeriveApiKey tc], t, s. split; [done|].
      split; [right; eauto|]. split.
      * destruct Ht as [->|(_ & c & _ & ->)]; [by left|right; eauto].
      * destruct Hs as [->|(c & ts & _ & -> & _)]; [by left|right; eauto].
  - destruct (limit_call w r p) as [[d|e] p'] eqn:Hcall; simpl; [|done].
    intros _. apply limit_call_Return in Hcall
      as (c & p1 & ts & p2 & _ & _ & Hpost & ->).
    eauto 10.
Qed.

Lemma X11_one_pass_over_the_venue_witness :
  exists calls,
    trace (snd (Routes.post_limit Scenario.venue Scenario.limit_request boot))
    = trace boot ++ calls /\
    limit_call_pattern calls /\ length calls = 3.
Proof.
  destruct (X11_one_pass_over_the_venue Scenario.venue
              (Routes.post_limit Scenario.venue) "Failed to create limit order"
              Scenario.limit_request boot) as [(calls & Htr & Hpat) _].
  - unfold limit_routes. apply elem_of_cons. by left.
  - exists calls. split; [exact Htr|]. split; [exact Hpat|].
    assert (Hlen : length (trace (snd (Routes.post_limit Scenario.venue
                                         Scenario.limit_request boot))) = 3)
      by (by vm_compute).
    rewrite Htr in Hlen. exact Hlen.
Defined.


(** Every upstream call of a request on a limit route is a key derivation,
    a tick-size lookup for the body's token (only if the body has no tick
    size), or the submission of the body's order. *)
Lemma limit_route_calls (w : Venue)
    (h : LimitOrderRequest.t -> Routes.Handler) (fb : string)
    (r : LimitOrderRequest.t) (p : Process) :
  (h, fb) ∈ limit_routes w ->
  exists calls,
    trace (snd (h r p)) = trace p ++ calls /\
    forall e, e ∈ calls ->
      is_derivation e = true \/
      (truthy (LimitOrderRequest.tickSize r) = false /\
       exists c, e = EvGetTickSize c (default "" (LimitOrderRequest.tokenID r)))
      \/ exists c ts,
           e = EvCreateAndPostOrder c (limit_userOrder r) (limit_options r ts)
                 (limit_orderTypeEnum_of
                    (or_else (LimitOrderRequest.orderType r) "GTC")) /\
           (truthy (LimitOrderRequest.tickSize r) = true ->
            LimitOrderRequest.tickSize r = Some ts).
Proof.
  intros Hh. rewrite (limit_route_unfold w h fb r p Hh).
  destruct (limit_rejection r) as [msg|].
  { exists []. rewrite app_nil_r. split; [done|]. by intros e ?%elem_of_nil. }
  rewrite respond_state.
  destruct (limit_call_shape w r p) as (t & s & Htr & _ & Ht & Hs).
  assert (Hd : exists d, trace (snd (ClobClient.clientFor w
                 (credentials_of (LimitOrderRequest.privateKey r)
                    (LimitOrderRequest.funderAddress r)) p)) = trace p ++ d /\
               forall e, e ∈ d -> is_derivation e = true).
  { destruct (clientFor_trace w
                (credentials_of (LimitOrderRequest.privateKey r)
                   (LimitOrderRequest.funderAddress r)) p) as [Hd|[tc Hd]].
    - exists []. rewrite app_nil_r. split; [done|]. by intros e ?%elem_of_nil.
    - exists [EvCreateOrDeriveApiKey tc]. split; [done|].
      by intros e ->%list_elem_of_singleton. }
  destruct Hd as (d & Hd & Hder).
  exists (d ++ t ++ s). rewrite Htr, Hd, <- app_assoc. split; [done|].
  intros e [He|[He|He]%elem_of_app]%elem_of_app.
  - left. by apply Hder.
  - right. left. destruct Ht as [->|(Hf & c & _ & ->)];
      [by apply elem_of_nil in He|].
    apply list_elem_of_singleton in He as ->. eauto.
  - right. right. destruct Hs as [->|(c & ts & _ & -> & Hts)];
      [by apply elem_of_nil in He|].
    apply list_elem_of_singleton in He as ->. eauto.
Qed.

(** X8.  A limit body that brings its own tick size is never checked
    against the venue: the run makes no tick-size lookup, and a submission,
    if one is made, carries exactly the body's tick size. *)
Theorem X8_given_tick_size_is_trusted (w : Venue)
    (h : LimitOrderRequest.t -> Routes.Handler) (fb : string)
    (r : LimitOrderRequest.t) (p : Process) (ts : string) :
  (h, fb) ∈ limit_routes w ->
  LimitOrderRequest.tickSize r = Some ts -> ts <> "" ->
  exists calls,
    trace (snd (h r p)) = trace p ++ calls /\
    (forall c tok, EvGetTickSize c tok ∉ calls) /\
    (forall c o opts ot,
       EvCreateAndPostOrder c o opts ot ∈ calls -> co_tickSize opts = ts).
Proof.
  intros Hh Hts Hne.
  assert (Htruthy : truthy (LimitOrderRequest.tickSize r) = true).
  { rewrite Hts. simpl. by destruct (String.eqb_spec ts ""). }
  destruct (limit_route_calls w h fb r p Hh) as (calls & Htr & Hcalls).
  exists calls. split; [exact Htr|]. split.
  - intros c tok Hin.
    destruct (Hcalls _ Hin) as [H|[[H _]|(c' & ts' & H & _)]];
      [done|congruence|done].
  - intros c o opts ot Hin.
    destruct (Hcalls _ Hin) as [H|[[H _]|(c' & ts' & [= -> -> -> ->] & H)]];
      [done|congruence|].
    specialize (H Htruthy). simpl. congruence.
Qed.

Lemma X8_given_tick_size_is_trusted_witness :
  let r := Scenario.limit_request_for "0xaaa" "0xf1" in
  exists calls,
    trace (snd (Routes.post_limit Scenario.empty_venue r boot))
    = trace boot ++ calls /\
    (forall c tok, EvGetTickSize c tok ∉ calls) /\
    status (fst (Routes.post_limit Scenario.empty_venue r boot)) = 200%Z.
Proof.
  intros r.
  destruct (X8_given_tick_size_is_trusted Scenario.empty_venue
              (Routes.post_limit Scenario.empty_venue)
              "Failed to create limit order" r boot "0.01")
    as (calls & Htr & Hno & _).
  - unfold limit_routes. apply elem_of_cons. by left.
  - reflexivity.
  - congruence.
  - exists calls. split; [exact Htr|]. split; [exact Hno|]. by vm_compute.
Defined.

(** X14.  The limit routes do not look at the numbers: whatever rationals
    the price and the size are (zero and negative ones included), a body
    that was valid stays valid, and a submission, if one is made, carries
    exactly that price and that size. *)
Theorem X14_price_and_size_pass_through (w : Venue)
    (h : LimitOrderRequest.t -> Routes.Handler) (fb : string)
    (r : LimitOrderRequest.t) (p : Process) (price size : Q) :
  (h, fb) ∈ limit_routes w ->
  limit_rejection r = None ->
  let r' := with_price_size price size r in
  status (fst (h r' p)) <> 400%Z /\
  exists calls,
    trace (snd (h r' p)) = trace p ++ calls /\
    forall c o opts ot,
      EvCreateAndPostOrder c o opts ot ∈ calls ->
      uo_price o = price /\ uo_size o = size.
Proof.
  intros Hh Hrej r'. split.
  - rewrite (limit_route_unfold w h fb r' p Hh).
    assert (Hrej' : limit_rejection r' = None).
    { revert Hrej. unfold limit_rejection, r'. simpl.
      repeat case_match; try done. }
    rewrite Hrej'. by destruct (limit_call w r' p) as [[d|e] p'].
  - destruct (limit_route_calls w h fb r' p Hh) as (calls & Htr & Hcalls).
    exists calls. split; [exact Htr|].
    intros c o opts ot Hin.
    destruct (Hcalls _ Hin) as [H|[[_ [c' H]]|(c' & ts' & [= -> -> -> ->] & _)]];
      [done|done|].
    by split.
Qed.

Lemma X14_price_and_size_pass_through_witness :
  let r' := with_price_size 0%Q (-5)%Q Scenario.limit_request in
  status (fst (Routes.post_limit Scenario.venue r' boot)) = 200%Z /\
  exists calls,
    trace (snd (Routes.post_limit Scenario.venue r' boot))
    = trace boot ++ calls /\
    forall c o opts ot,
      EvCreateAndPostOrder c o opts ot ∈ calls ->
      uo_price o = 0%Q /\ uo_size o = (-5)%Q.
Proof.
  intros r'.
  destruct (X14_price_and_size_pass_through Scenario.venue
              (Routes.post_limit Scenario.venue) "Failed to create limit order"
              Scenario.limit_request boot 0%Q (-5)%Q) as [_ H].
  - unfold limit_routes. apply elem_of_cons. by left.
  - reflexivity.
  - split; [by vm_compute | exact H].
Defined.

(** ** Sessions and requests *)

Lemma credentials_of_Some (pk fa : string) :
  pk <> "" -> fa <> "" ->
  credentials_of (Some pk) (Some fa)
  = Some {| Credentials.privateKey := pk; Credentials.funderAddress := fa |}.
Proof.
  intros Hpk%String.eqb_neq Hfa%String.eqb_neq.
  unfold credentials_of. simpl. by rewrite Hpk, Hfa.
Qed.

Lemma credentials_of_None (pk fa : option string) :
  truthy pk = false -> credentials_of pk fa = None.
Proof. intros H. unfold credentials_of. by rewrite H. Qed.

(** X6.  Once the session of a pair is cached, a request with that pair no
    longer touches the registry: the statics and the allocator are left as
    they are and the venue is not asked to derive a key. *)
Theorem X6_warm_request_leaves_registry (w : Venue)
    (h : LimitOrderRequest.t -> Routes.Handler) (fb : string)
    (r : LimitOrderRequest.t) (p : Process) (pk fa : string)
    (c : PolymarketClobClient) :
  (h, fb) ∈ limit_routes w ->
  LimitOrderRequest.privateKey r = Some pk -> pk <> "" ->
  LimitOrderRequest.funderAddress r = Some fa -> fa <> "" ->
  clientCache p !! ClobClient.cacheKey pk fa = Some c ->
  same_registry p (snd (h r p)) /\
  exists calls,
    trace (snd (h r p)) = trace p ++ calls /\
    forall e, e ∈ calls -> is_derivation e = false.
Proof.
  intros Hh Hpk Hpkne Hfa Hfane Hcached.
  rewrite (limit_route_unfold w h fb r p Hh).
  destruct (limit_rejection r) as [msg|].
  { split; [apply same_registry_refl|]. exists []. rewrite app_nil_r.
    split; [done|]. by intros e ?%elem_of_nil. }
  rewrite respond_state.
  assert (Hc : ClobClient.clientFor w
                 (credentials_of (LimitOrderRequest.privateKey r)
                    (LimitOrderRequest.funderAddress r)) p = (Return c, p)).
  { rewrite Hpk, Hfa, credentials_of_Some by done. simpl.
    by apply getInstanceWithCredentials_cached. }
  destruct (limit_call_shape w r p) as (t & s & Htr & Hreg & Ht & Hs).
  rewrite Hc in Htr, Hreg, Ht, Hs. simpl in *.
  split; [exact Hreg|]. exists (t ++ s). split; [exact Htr|].
  intros e [He|He]%elem_of_app.
  - destruct Ht as [->|(_ & c' & _ & ->)]; [by apply elem_of_nil in He|].
    by apply list_elem_of_singleton in He as ->.
  - destruct Hs as [->|(c' & ts & _ & -> & _)]; [by apply elem_of_nil in He|].
    by apply list_elem_of_singleton in He as ->.
Qed.

Lemma X6_warm_request_leaves_registry_witness :
  let r := Scenario.limit_request_for "0xaaa" "0xf1" in
  let warm := snd (Routes.post_limit Scenario.venue r boot) in
  same_registry warm (snd (Routes.post_limit Scenario.venue r warm)) /\
  length (trace (snd (Routes.post_limit Scenario.venue r warm)))
  = S (length (trace warm)).
Proof.
  intros r warm.
  destruct (clientCache warm !! ClobClient.cacheKey "0xaaa" "0xf1")
    as [c|] eqn:E; [|by vm_compute in E].
  destruct (X6_warm_request_leaves_registry Scenario.venue
              (Routes.post_limit Scenario.venue) "Failed to create limit order"
              r warm "0xaaa" "0xf1" c) as [Hreg _].
  - unfold limit_routes. apply elem_of_cons. by left.
  - reflexivity.
  - congruence.
  - reflexivity.
  - congruence.
  - exact E.
  - split; [exact Hreg | by vm_compute].
Defined.

Lemma bind_same_start {A B} (m1 m2 : Async A) (k : A -> Async B)
    (p : Process) :
  m1 p = m2 p -> bind m1 k p = bind m2 k p.
Proof. intros H. unfold bind. by rewrite H. Qed.

Lemma createAndPostOrder_same_session (w : Venue) (op : OrderParams.t)
    (mp : MarketParams.t) (ot : option string)
    (cr1 cr2 : option Credentials.t) (p : Process) :
  ClobClient.clientFor w cr1 p = ClobClient.clientFor w cr2 p ->
  ClobClient.createAndPostOrder w op mp ot cr1 p
  = ClobClient.createAndPostOrder w op mp ot cr2 p.
Proof. intros H. unfold ClobClient.createAndPostOrder. by apply bind_same_start. Qed.

(** X7.  With a default pair in the environment, leaving the credentials
    out of a limit body is the same as sending that pair: both requests get
    the same reply and leave the same process, so the default session is
    the one cached under the environment pair's key.  (The static
    [instance] is never assigned, which [reachable] processes witness.) *)
Theorem X7_default_pair_is_environment_pair (w : Venue)
    (h : LimitOrderRequest.t -> Routes.Handler) (fb : string)
    (r : LimitOrderRequest.t) (p : Process) :
  (h, fb) ∈ limit_routes w ->
  reachable w p ->
  truthy (PRIVATE_KEY (env w)) = true ->
  truthy (FUNDER_ADDRESS (env w)) = true ->
  truthy (LimitOrderRequest.privateKey r) = false ->
  truthy (LimitOrderRequest.funderAddress r) = false ->
  h r p = h (with_credentials (PRIVATE_KEY (env w)) (FUNDER_ADDRESS (env w)) r) p.
Proof.
  intros Hh Hreach Hpk Hfa Hrpk Hrfa.
  rewrite !(limit_route_unfold w h fb _ p Hh).
  assert (Hrej : limit_rejection
                   (with_credentials (PRIVATE_KEY (env w))
                      (FUNDER_ADDRESS (env w)) r) = limit_rejection r).
  { unfold limit_rejection, with_credentials, paired. simpl.
    by rewrite Hpk, Hfa, Hrpk, Hrfa. }
  rewrite Hrej. destruct (limit_rejection r); [done|]. f_equal.
  unfold limit_call, with_credentials. simpl.
  apply createAndPostOrder_same_session.
  rewrite (credentials_of_None _ _ Hrpk).
  unfold credentials_of. rewrite Hpk, Hfa. simpl.
  by rewrite getInstance_default_pair; [|apply (reachable_instance w)|..].
Qed.

Lemma X7_default_pair_is_environment_pair_witness :
  Routes.post_limit Scenario.venue Scenario.limit_request boot
  = Routes.post_limit Scenario.venue
      (with_credentials (Some "0xabc") (Some "0xfund") Scenario.limit_request)
      boot.
Proof.
  apply (X7_default_pair_is_environment_pair Scenario.venue
           (Routes.post_limit Scenario.venue) "Failed to create limit order"
           Scenario.limit_request boot); try reflexivity.
  - unfold limit_routes. apply elem_of_cons. by left.
  - apply rtc_refl.
Defined.

(** X1.  A valid limit body without credentials, on a server whose
    environment lacks one of the two default credentials, is answered 500
    with the name of the first missing variable; the process is left as it
    was and the venue is not called. *)
Theorem X1_missing_default_credentials (w : Venue)
    (h : LimitOrderRequest.t -> Routes.Handler) (fb : string)
    (r : LimitOrderRequest.t) (p : Process) :
  (h, fb) ∈ limit_routes w ->
  limit_rejection r = None ->
  truthy (LimitOrderRequest.privateKey r) = false ->
  instance p = None ->
  truthy (PRIVATE_KEY (env w)) && truthy (FUNDER_ADDRESS (env w)) = false ->
  h r p =
  (envelope_500 w fb
     (Error (if truthy (PRIVATE_KEY (env w))
             then "FUNDER_ADDRESS environment variable is required"
             else "PRIVATE_KEY environment variable is required")) p, p).
Proof.
  intros Hh Hrej Hrpk Hinst Henv.
  rewrite (limit_route_unfold w h fb r p Hh), Hrej.
  rewrite (limit_call_no_client w r p p
             (Error (if truthy (PRIVATE_KEY (env w))
                     then "FUNDER_ADDRESS environment variable is required"
                     else "PRIVATE_KEY environment variable is required")));
    [done|].
  rewrite (credentials_of_None _ _ Hrpk). simpl.
  unfold ClobClient.getInstance. run. rewrite Hinst.
  destruct (truthy (PRIVATE_KEY (env w))); simpl; [|done].
  simpl in Henv. by rewrite Henv.
Qed.

Lemma X1_missing_default_credentials_witness :
  let bare :=
    {| env := {| PRIVATE_KEY := None; FUNDER_ADDRESS := Some "0xfund";
                 HOST := None; CHAIN_ID := None; SIGNATURE_TYPE := None |};
       Wallet_rejects := Wallet_rejects Scenario.venue;
       createOrDeriveApiKey := createOrDeriveApiKey Scenario.venue;
       getTickSize := getTickSize Scenario.venue;
       client_createAndPostOrder := client_createAndPostOrder Scenario.venue;
       client_createAndPostMarketOrder :=
         client_createAndPostMarketOrder Scenario.venue;
       toISOString := toISOString Scenario.venue |} in
  Routes.post_limit bare Scenario.limit_request boot
  = (envelope_500 bare "Failed to create limit order"
       (Error "PRIVATE_KEY environment variable is required") boot, boot).
Proof.
  intros bare.
  apply (X1_missing_default_credentials bare (Routes.post_limit bare)
           "Failed to create limit order" Scenario.limit_request boot);
    try reflexivity.
  unfold limit_routes. apply elem_of_cons. by left.
Defined.

(** X17.  A valid limit body whose signing key the wallet library refuses,
    and whose pair has no cached session, is answered 500 with the wallet
    library's error; nothing is cached and the venue is not called. *)
Theorem X17_refused_signing_key (w : Venue)
    (h : LimitOrderRequest.t -> Routes.Handler) (fb : string)
    (r : LimitOrderRequest.t) (p : Process) (pk fa : string) (e : JsError) :
  (h, fb) ∈ limit_routes w ->
  limit_rejection r = None ->
  LimitOrderRequest.privateKey r = Some pk -> pk <> "" ->
  LimitOrderRequest.funderAddress r = Some fa -> fa <> "" ->
  clientCache p !! ClobClient.cacheKey pk fa = None ->
  Wallet_rejects w pk = Some e ->
  h r p = (envelope_500 w fb e p, p).
Proof.
  intros Hh Hrej Hpk Hpkne Hfa Hfane Hmiss Hw.
  rewrite (limit_route_unfold w h fb r p Hh), Hrej.
  rewrite (limit_call_no_client w r p p e); [done|].
  rewrite Hpk, Hfa, credentials_of_Some by done. simpl.
  unfold ClobClient.getInstanceWithCredentials. run. rewrite Hmiss.
  apply String.eqb_neq in Hpkne, Hfane. by rewrite Hpkne, Hfane, Hw.
Qed.

Lemma X17_refused_signing_key_witness :
  let r := Scenario.limit_request_for "not-hex" "0xf1" in
  Routes.post_limit Scenario.venue r boot
  = (envelope_500 Scenario.venue "Failed to create limit order"
       (Error "invalid private key") boot, boot).
Proof.
  intros r.
  apply (X17_refused_signing_key Scenario.venue
           (Routes.post_limit Scenario.venue) "Failed to create limit order"
           r boot "not-hex" "0xf1"); try reflexivity; try congruence.
  unfold limit_routes. apply elem_of_cons. by left.
Defined.

(** ** Errors of the venue, as the caller sees them *)

(** X9.  When the body has no tick size and the venue's tick-size lookup
    fails with anything but a not-found signal, both limit routes answer 500
    and the error text is a fixed frame around the venue's message (the
    word [undefined] if it has none); the venue's error itself, with its
    status, is dropped, and nothing is submitted. *)
Theorem X9_tick_lookup_failure_is_wrapped (w : Venue)
    (h : LimitOrderRequest.t -> Routes.Handler) (fb : string)
    (r : LimitOrderRequest.t) (p p1 : Process) (c : PolymarketClobClient)
    (e : JsError) :
  let tok := default "" (LimitOrderRequest.tokenID r) in
  let p2 := log_call (EvGetTickSize c tok) p1 in
  (h, fb) ∈ limit_routes w ->
  limit_rejection r = None ->
  truthy (LimitOrderRequest.tickSize r) = false ->
  ClobClient.clientFor w
    (credentials_of (LimitOrderRequest.privateKey r)
       (LimitOrderRequest.funderAddress r)) p = (Return c, p1) ->
  getTickSize w (length (trace p1)) c tok = inl e ->
  signals_not_found e = false ->
  h r p =
  ({| status := 500;
      body := {| success := Some false; data := None;
                 error := Some ("Failed to get market info: "
                                +:+ template (message e)
                                +:+ ". Please provide tickSize manually or use a valid tokenID.");
                 timestamp := Some (Routes.now w p2) |} |}, p2).
Proof.
  intros tok p2 Hh Hrej Ht Hc Hget Hnf.
  rewrite (limit_route_unfold w h fb r p Hh), Hrej.
  rewrite (limit_call_no_market w r p p1 c e Hc Ht Hget), Hnf. simpl.
  unfold envelope_500. simpl.
  by destruct (String.eqb_spec
                 ("Failed to get market info: " +:+ template (message e)
                  +:+ ". Please provide tickSize manually or use a valid tokenID.")
                 "").
Qed.

Lemma X9_tick_lookup_failure_is_wrapped_witness :
  let flaky :=
    {| env := Scenario.environment;
       Wallet_rejects := Wallet_rejects Scenario.venue;
       createOrDeriveApiKey := createOrDeriveApiKey Scenario.venue;
       getTickSize := fun _ _ _ =>
         inl {| message := None; response_status := Some 503%Z;
                data_error := None |};
       client_createAndPostOrder := client_createAndPostOrder Scenario.venue;
       client_createAndPostMarketOrder :=
         client_createAndPostMarketOrder Scenario.venue;
       toISOString := toISOString Scenario.venue |} in
  status (fst (Routes.post_limit flaky Scenario.limit_request boot)) = 500%Z /\
  error (body (fst (Routes.post_limit flaky Scenario.limit_request boot)))
  = Some "Failed to get market info: undefined. Please provide tickSize manually or use a valid tokenID.".
Proof.
  intros flaky.
  destruct (ClobClient.clientFor flaky
              (credentials_of
                 (LimitOrderRequest.privateKey Scenario.limit_request)
                 (LimitOrderRequest.funderAddress Scenario.limit_request))
              boot) as [[c|e] p1] eqn:Hc; [|by vm_compute in Hc].
  rewrite (X9_tick_lookup_failure_is_wrapped flaky (Routes.post_limit flaky)
             "Failed to create limit order" Scenario.limit_request boot p1 c
             {| message := None; response_status := Some 503%Z;
                data_error := None |}).
  - by split.
  - unfold limit_routes. apply elem_of_cons. by left.
  - reflexivity.
  - reflexivity.
  - exact Hc.
  - reflexivity.
  - reflexivity.
Defined.

(** X10.  When the venue refuses the submission with an error [e], both
    limit routes answer 500, after exactly that submission.  The error text
    is chosen in this order: a 404 names the token as not found; otherwise
    a message that mentions [toString] is reported as invalid market
    parameters, with the message appended; otherwise the venue's message is
    passed on, or the route's fallback text if it has none. *)
Theorem X10_submission_error_text (w : Venue)
    (h : LimitOrderRequest.t -> Routes.Handler) (fb : string)
    (r : LimitOrderRequest.t) (p p1 p2 : Process) (c : PolymarketClobClient)
    (ts : string) (e : JsError) :
  let tok := default "" (LimitOrderRequest.tokenID r) in
  let ot := or_else (LimitOrderRequest.orderType r) "GTC" in
  let p3 := log_call (EvCreateAndPostOrder c (limit_userOrder r)
                        (limit_options r ts) (limit_orderTypeEnum_of ot)) p2 in
  (h, fb) ∈ limit_routes w ->
  limit_rejection r = None ->
  ClobClient.clientFor w
    (credentials_of (LimitOrderRequest.privateKey r)
       (LimitOrderRequest.funderAddress r)) p = (Return c, p1) ->
  tick_resolved w (LimitOrderRequest.tickSize r) tok c p1 ts p2 ->
  String.eqb ot "FOK" || String.eqb ot "FAK" = false ->
  client_createAndPostOrder w (length (trace p2)) c (limit_userOrder r)
    (limit_options r ts) (limit_orderTypeEnum_of ot) = inl e ->
  status (fst (h r p)) = 500%Z /\ snd (h r p) = p3 /\
  error (body (fst (h r p))) =
  Some (if bool_decide (response_status e = Some 404%Z) then
          "Market not found for tokenID: " +:+ tok
          +:+ ". Please verify the tokenID is correct."
        else match message e with
             | Some m =>
                 if includes m "toString" then
                   "Invalid market parameters. Market may not exist or tickSize may be incorrect. Original error: "
                   +:+ m
                 else if String.eqb m "" then fb else m
             | None => fb
             end).
Proof.
  intros tok ot p3 Hh Hrej Hc Ht Hot Hpost.
  rewrite (limit_route_unfold w h fb r p Hh), Hrej.
  rewrite (limit_call_resolved w r p p1 p2 c ts Hc Ht). cbv zeta.
  fold ot. rewrite Hot, Hpost. simpl. split; [done|]. split; [done|].
  f_equal. unfold clarify. fold tok.
  destruct (bool_decide (response_status e = Some 404%Z)); [done|].
  destruct (message e) as [m|] eqn:Hm; simpl.
  - destruct (includes m "toString"); simpl; [done|]. by rewrite Hm.
  - by rewrite Hm.
Qed.

Lemma X10_submission_error_text_witness :
  let gone :=
    {| env := Scenario.environment;
       Wallet_rejects := Wallet_rejects Scenario.venue;
       createOrDeriveApiKey := createOrDeriveApiKey Scenario.venue;
       getTickSize := getTickSize Scenario.venue;
       client_createAndPostOrder := fun _ _ _ _ _ => inl Scenario.not_found;
       client_createAndPostMarketOrder :=
         client_createAndPostMarketOrder Scenario.venue;
       toISOString := toISOString Scenario.venue |} in
  status (fst (Routes.post_limit gone Scenario.limit_request boot)) = 500%Z /\
  error (body (fst (Routes.post_limit gone Scenario.limit_request boot)))
  = Some "Market not found for tokenID: 0xabc. Please verify the tokenID is correct.".
Proof.
  intros gone.
  destruct (ClobClient.clientFor gone
              (credentials_of
                 (LimitOrderRequest.privateKey Scenario.limit_request)
                 (LimitOrderRequest.funderAddress Scenario.limit_request))
              boot) as [[c|e] p1] eqn:Hc; [|by vm_compute in Hc].
  destruct (X10_submission_error_text gone (Routes.post_limit gone)
              "Failed to create limit order" Scenario.limit_request boot p1
              (log_call (EvGetTickSize c "0xabc") p1) c "0.01"
              Scenario.not_found) as (H500 & _ & Herr).
  - unfold limit_routes. apply elem_of_cons. by left.
  - reflexivity.
  - exact Hc.
  - right. by repeat split.
  - reflexivity.
  - reflexivity.
  - split; [exact H500 | exact Herr].
Defined.

(** ** Validation *)

Lemma limit_rejection_None (r : LimitOrderRequest.t) :
  limit_rejection r = None <->
  limit_fields_present r
  && paired (LimitOrderRequest.privateKey r)
       (LimitOrderRequest.funderAddress r) = true.
Proof.
  unfold limit_rejection, limit_fields_present.
  destruct (truthy (LimitOrderRequest.tokenID r)); simpl; [|done].
  destruct (bool_decide (LimitOrderRequest.price r = None)); simpl; [done|].
  destruct (truthy (LimitOrderRequest.side r)); simpl; [|done].
  destruct (bool_decide (LimitOrderRequest.size r = None)); simpl; [done|].
  by destruct (paired _ _).
Qed.

(** X12.  On both limit routes the reply is a 400 exactly when a required
    field (tokenID, price, side, size) is missing or the credentials are
    not paired; a 400 reply is a bare [{error}] object, leaves the process
    untouched and is given without any call to the venue. *)
Theorem X12_limit_validation_is_pure (w : Venue)
    (h : LimitOrderRequest.t -> Routes.Handler) (fb : string)
    (r : LimitOrderRequest.t) (p : Process) :
  (h, fb) ∈ limit_routes w ->
  (status (fst (h r p)) = 400%Z <->
   limit_fields_present r
   && paired (LimitOrderRequest.privateKey r)
        (LimitOrderRequest.funderAddress r) = false) /\
  (status (fst (h r p)) = 400%Z ->
   snd (h r p) = p /\ is_envelope (body (fst (h r p))) = false).
Proof.
  intros Hh. rewrite (limit_route_unfold w h fb r p Hh).
  pose proof (limit_rejection_None r) as Hiff.
  destruct (limit_rejection r) as [msg|]; simpl.
  - split; [|done]. split; [intros _|done].
    destruct (_ && _); [|done]. by destruct Hiff as [_ Hiff]; discriminate Hiff.
  - destruct Hiff as [Hiff _]. rewrite (Hiff eq_refl).
    destruct (limit_call w r p) as [[d|e] p']; simpl; by split.
Qed.

Lemma X12_limit_validation_is_pure_witness :
  status (fst (Routes.post_legacy Scenario.venue Scenario.empty_request boot))
  = 400%Z /\
  snd (Routes.post_legacy Scenario.venue Scenario.empty_request boot) = boot.
Proof.
  destruct (X12_limit_validation_is_pure Scenario.venue
              (Routes.post_legacy Scenario.venue) "Failed to create order"
              Scenario.empty_request boot) as [[_ H1] H2].
  - unfold limit_routes. apply elem_of_cons. right. apply elem_of_cons. by left.
  - pose proof (H1 eq_refl) as H400. split; [exact H400|].
    by destruct (H2 H400).
Defined.

Lemma market_rejection_None (r : MarketOrderRequest.t) :
  market_rejection r = None <-> market_request_valid r = true.
Proof.
  unfold market_rejection, market_request_valid, market_fields_valid.
  destruct (truthy (MarketOrderRequest.tokenID r)); simpl; [|done].
  destruct (MarketOrderRequest.amount r) as [a|]; simpl; [|done].
  destruct (Qle_bool a 0); simpl; [done|].
  destruct (truthy (MarketOrderRequest.side r)); simpl; [|done].
  destruct (_ || _); simpl; [|done].
  by destruct (paired _ _).
Qed.

(** X13.  The market route answers 400 exactly when the body fails its
    validation: token missing, amount missing, zero or negative, side
    missing, order type other than the exact strings FOK and FAK, or
    credentials not paired.  A 400 reply leaves the process untouched; in
    contrast with the limit routes, the order type is checked before
    anything is asked of the venue. *)
Theorem X13_market_validation_is_pure (w : Venue) (r : MarketOrderRequest.t)
    (p : Process) :
  (status (fst (Routes.post_market w r p)) = 400%Z <->
   market_request_valid r = false) /\
  (market_request_valid r = false ->
   snd (Routes.post_market w r p) = p /\
   is_envelope (body (fst (Routes.post_market w r p))) = false).
Proof.
  rewrite post_market_unfold.
  pose proof (market_rejection_None r) as Hiff.
  destruct (market_rejection r) as [msg|]; simpl.
  - split; [|done]. split; [intros _|done].
    destruct (market_request_valid r); [|done].
    by destruct Hiff as [_ Hiff]; discriminate Hiff.
  - destruct Hiff as [Hiff _]. rewrite (Hiff eq_refl).
    destruct (market_call w r p) as [[d|e] p']; simpl; by split.
Qed.

Lemma X13_market_validation_is_pure_witness :
  let zero :=
    {| MarketOrderRequest.tokenID := Some "0xabc";
       MarketOrderRequest.amount := Some 0%Q;
       MarketOrderRequest.side := Some "BUY";
       MarketOrderRequest.orderType := Some "FOK";
       MarketOrderRequest.tickSize := None;
       MarketOrderRequest.privateKey := None;
       MarketOrderRequest.funderAddress := None |} in
  Routes.post_market Scenario.venue zero boot
  = (status_400_error "amount is required and must be greater than 0", boot).
Proof.
  intros zero.
  destruct (X13_market_validation_is_pure Scenario.venue zero boot)
    as [_ H].
  destruct (H eq_refl) as [Hp _].
  rewrite (surjective_pairing (Routes.post_market _ _ _)), Hp.
  reflexivity.
Defined.

(** ** Fields that do not matter, and defaults *)

Lemma createAndPostOrder_expiration (w : Venue) (tok side : string)
    (price size : Q) (e1 e2 : option Q) (mp : MarketParams.t)
    (ot : option string) (cr : option Credentials.t) :
  ClobClient.createAndPostOrder w
    {| OrderParams.tokenID := tok; OrderParams.price := price;
       OrderParams.side := side; OrderParams.size := size;
       OrderParams.expiration := e1 |} mp ot cr
  = ClobClient.createAndPostOrder w
      {| OrderParams.tokenID := tok; OrderParams.price := price;
         OrderParams.side := side; OrderParams.size := size;
         OrderParams.expiration := e2 |} mp ot cr.
Proof. reflexivity. Qed.

(** X15.  The expiration of a limit body is read by the routes and then
    dropped: whatever it is, the reply, the calls to the venue and the final
    process are the same, also for a GTD order.  Hence the earlier copy of
    the order route, which does not pass the expiration on, behaves exactly
    as the legacy route. *)
Theorem X15_expiration_is_dropped (w : Venue)
    (h : LimitOrderRequest.t -> Routes.Handler) (fb : string)
    (r : LimitOrderRequest.t) (p : Process) (e : option Q) :
  (h, fb) ∈ limit_routes w ->
  h (with_expiration e r) p = h r p /\
  EarlierRoutes.post_root w r p = Routes.post_legacy w r p.
Proof.
  intros Hh. split.
  - by rewrite !(limit_route_unfold w h fb _ p Hh).
  - destruct r. unfold EarlierRoutes.post_root, Routes.post_legacy. simpl.
    handler_cases.
Qed.

Lemma X15_expiration_is_dropped_witness :
  let gtd := with_orderType (Some "GTD") Scenario.limit_request in
  Routes.post_limit Scenario.venue (with_expiration (Some 1735689600%Q) gtd) boot
  = Routes.post_limit Scenario.venue gtd boot /\
  EarlierRoutes.post_root Scenario.venue gtd boot
  = Routes.post_legacy Scenario.venue gtd boot.
Proof.
  intros gtd.
  destruct (X15_expiration_is_dropped Scenario.venue
              (Routes.post_limit Scenario.venue) "Failed to create limit order"
              gtd boot (Some 1735689600%Q)) as [H1 H2].
  - unfold limit_routes. apply elem_of_cons. by left.
  - split; [exact H1 | exact H2].
Defined.

(** X16.  Defaults of a limit body: an absent order type is handled exactly
    as GTC and an absent [negRisk] exactly as [false].  GTD is the one order
    type that reaches the venue under another code than GTC: every
    submission of a GTD body carries the code GTD. *)
Theorem X16_limit_defaults (w : Venue)
    (h : LimitOrderRequest.t -> Routes.Handler) (fb : string)
    (r : LimitOrderRequest.t) (p : Process) :
  (h, fb) ∈ limit_routes w ->
  h (with_orderType None r) p = h (with_orderType (Some "GTC") r) p /\
  h (with_negRisk None r) p = h (with_negRisk (Some false) r) p /\
  exists calls,
    trace (snd (h (with_orderType (Some "GTD") r) p)) = trace p ++ calls /\
    forall c o opts ot, EvCreateAndPostOrder c o opts ot ∈ calls -> ot = GTD.
Proof.
  intros Hh. split; [|split].
  - by rewrite !(limit_route_unfold w h fb _ p Hh).
  - by rewrite !(limit_route_unfold w h fb _ p Hh).
  - destruct (limit_route_calls w h fb (with_orderType (Some "GTD") r) p Hh)
      as (calls & Htr & Hcalls).
    exists calls. split; [exact Htr|].
    intros c o opts ot Hin.
    by destruct (Hcalls _ Hin)
      as [H|[[_ [c' H]]|(c' & ts' & [= -> -> -> ->] & _)]].
Qed.

Lemma X16_limit_defaults_witness :
  exists calls,
    trace (snd (Routes.post_limit Scenario.venue
                  (with_orderType (Some "GTD") Scenario.limit_request) boot))
    = trace boot ++ calls /\
    (forall c o opts ot, EvCreateAndPostOrder c o opts ot ∈ calls -> ot = GTD) /\
    length calls = 3.
Proof.
  destruct (X16_limit_defaults Scenario.venue (Routes.post_limit Scenario.venue)
              "Failed to create limit order" Scenario.limit_request boot)
    as (_ & _ & calls & Htr & Hgtd).
  - unfold limit_routes. apply elem_of_cons. by left.
  - exists calls. split; [exact Htr|]. split; [exact Hgtd|].
    assert (Hlen : length (trace (snd (Routes.post_limit Scenario.venue
                     (with_orderType (Some "GTD") Scenario.limit_request)
                     boot))) = 3) by (by vm_compute).
    rewrite Htr in Hlen. exact Hlen.
Defined.

(** * The claims that rest on the lemmas above *)

(** ** Distinct pairs, one session *)

(** C4 (the code departs from it).  The cache key is the two strings joined
    by a dash, and the cache is looked up before the signing key is
    examined.  Alice's pair, a well-formed key with the funder address
    ["0xFunder-A"], and the pair made of the string [<key>-0xFunder] with
    the funder address ["A"] are distinct and have the same cache key.
    Once Alice has a session, an acquisition for the second pair returns
    that very session, bound to Alice's pair, although the wallet library
    refuses the second pair's signing key; a limit order sent with the
    second pair is answered 200 and submitted through Alice's session. *)
Theorem C4_distinct_pairs_share_a_session :
  let pk1 := Scenario.alice_key in
  let fa1 := "0xFunder-A" in
  let pk2 := Scenario.alice_key +:+ "-0xFunder" in
  let fa2 := "A" in
  (pk1, fa1) <> (pk2, fa2) /\
  ClobClient.cacheKey pk1 fa1 = ClobClient.cacheKey pk2 fa2 /\
  Wallet_rejects Scenario.strict_venue pk1 = None /\
  Wallet_rejects Scenario.strict_venue pk2 <> None /\
  exists c p1,
    ClobClient.getInstanceWithCredentials Scenario.strict_venue pk1 fa1
      None None None boot = (Return c, p1) /\
    bound_to c pk1 fa1 /\
    ClobClient.getInstanceWithCredentials Scenario.strict_venue pk2 fa2
      None None None p1 = (Return c, p1) /\
    let out := Routes.post_limit Scenario.strict_venue
                 (Scenario.limit_request_for pk2 fa2) p1 in
    status (fst out) = 200%Z /\
    exists o opts ot,
      last (trace (snd out)) = Some (EvCreateAndPostOrder c o opts ot).
Proof.
  intros pk1 fa1 pk2 fa2.
  assert (Hkey : ClobClient.cacheKey pk1 fa1 = ClobClient.cacheKey pk2 fa2)
    by (by vm_compute).
  split; [intros [= H _]; by vm_compute in H|].
  split; [exact Hkey|]. split; [by vm_compute|]. split; [by vm_compute|].
  destruct (ClobClient.getInstanceWithCredentials Scenario.strict_venue pk1 fa1
              None None None boot) as [[c|e] p1] eqn:E;
    [|by vm_compute in E].
  exists c, p1. split; [reflexivity|].
  destruct (getInstanceWithCredentials_Return _ _ _ _ _ _ _ _ _ E)
    as [Hc [[Hhit _]|(_ & Hbound & _)]].
  { unfold boot in Hhit. simpl in Hhit. by rewrite lookup_empty in Hhit. }
  split; [exact Hbound|].
  assert (Hsecond : ClobClient.getInstanceWithCredentials Scenario.strict_venue
                      pk2 fa2 None None None p1 = (Return c, p1)).
  { apply getInstanceWithCredentials_cached. by rewrite <- Hkey. }
  split; [exact Hsecond|].
  assert (Hrej : limit_rejection (Scenario.limit_request_for pk2 fa2) = None)
    by (by vm_compute).
  rewrite post_limit_unfold, Hrej.
  rewrite (limit_call_resolved Scenario.strict_venue
             (Scenario.limit_request_for pk2 fa2) p1 p1 p1 c "0.01").
  - simpl. split; [reflexivity|]. eexists _, _, _. apply last_snoc.
  - exact Hsecond.
  - left. by repeat split.
Qed.

(** ** The market dispatcher, case by case *)





(** ** Handlers work with the session they acquire *)




(** ** The credential rule *)



(** With an explicit pair on a fresh process, the order is submitted with a
    session that was built for exactly that pair. *)
Lemma explicit_pair_session_example :
  match last (trace (snd (Routes.post_limit Scenario.venue
                            (Scenario.limit_request_for "0xaaa" "0xf1") boot)))
  with
  | Some (EvCreateAndPostOrder c _ _ _) => bound_to c "0xaaa" "0xf1"
  | _ => False
  end.
Proof. by vm_compute. Qed.

(** ** The market route *)



